(** * scrape_links.py: the link scraper, embedded and verified

    A shallow embedding of [scrape_links.py] (the subscription reader, the
    channel URL normaliser, the redirect-link parser and the scrape loop)
    together with the parts of the Python standard library it calls
    ([str] methods and [urllib.parse], after CPython 3.11).

    Python's [str] is modelled by [string]; a character is a code point
    below 256, so the model covers the Latin-1 part of Unicode.  An
    exception is a value of [exn]; a call that may raise returns an
    [outcome]. *)

From Stdlib Require Import String Ascii List Bool Arith PeanoNat NArith Lia.
From Stdlib Require Import Sorted Permutation.
Import ListNotations.

Local Open Scope list_scope.
Local Open Scope string_scope.

(** ** Exceptions *)

(** The exception classes the program distinguishes.  [KeyboardInterrupt]
    and [SystemExit] derive from [BaseException] only; every other class
    derives from [Exception]. *)
Inductive exn : Type :=
| ValueError
| KeyboardInterrupt
| SystemExit
| OtherException (name : string).

Definition is_Exception (e : exn) : bool :=
  match e with
  | KeyboardInterrupt | SystemExit => false
  | ValueError | OtherException _ => true
  end.

Definition is_ValueError (e : exn) : bool :=
  match e with ValueError => true | _ => false end.

Definition is_KeyboardInterrupt (e : exn) : bool :=
  match e with KeyboardInterrupt => true | _ => false end.

Inductive outcome (A : Type) : Type :=
| Ret (a : A)
| Raise (e : exn).

Arguments Ret {A} a.
Arguments Raise {A} e.

Definition obind {A B : Type} (m : outcome A) (k : A -> outcome B) : outcome B :=
  match m with
  | Ret a => k a
  | Raise e => Raise e
  end.

Declare Scope outcome_scope.
Delimit Scope outcome_scope with outcome.
Notation "'do' x <- m ; k" := (obind m (fun x => k))
  (at level 10, x name, m at level 100, k at level 200)
  : outcome_scope.
Local Open Scope outcome_scope.

(** ** Python's [str] methods *)

Module Py.

(** [bool(s)] for a string: the empty string is falsy. *)
Definition truthy (s : string) : bool :=
  match s with
  | EmptyString => false
  | String _ _ => true
  end.

(** [bool(x)] for an optional string: [None] and the empty string are
    falsy. *)
Definition otruthy (o : option string) : bool :=
  match o with
  | Some s => truthy s
  | None => false
  end.

Definition in_range (lo hi n : N) : bool := ((lo <=? n) && (n <=? hi))%N.

(** [c.isspace()], on the code points below 256. *)
Definition isspace (c : ascii) : bool :=
  let n := N_of_ascii c in
  in_range 9 13 n || in_range 28 32 n || (n =? 133)%N || (n =? 160)%N.

(** [c.isascii() and c.isalpha()]. *)
Definition is_ascii_alpha (c : ascii) : bool :=
  let n := N_of_ascii c in
  in_range 65 90 n || in_range 97 122 n.

Definition is_digit (c : ascii) : bool := in_range 48 57 (N_of_ascii c).

(** [c.lower()], on the code points below 256. *)
Definition lower_char (c : ascii) : ascii :=
  let n := N_of_ascii c in
  if in_range 65 90 n || (in_range 192 222 n && negb (n =? 215)%N)
  then ascii_of_N (n + 32)
  else c.

Fixpoint lower (s : string) : string :=
  match s with
  | EmptyString => EmptyString
  | String c r => String (lower_char c) (lower r)
  end.

Fixpoint lstrip_by (p : ascii -> bool) (s : string) : string :=
  match s with
  | EmptyString => EmptyString
  | String c r => if p c then lstrip_by p r else s
  end.

Fixpoint rstrip_by (p : ascii -> bool) (s : string) : string :=
  match s with
  | EmptyString => EmptyString
  | String c r =>
      match rstrip_by p r with
      | EmptyString => if p c then EmptyString else String c EmptyString
      | r' => String c r'
      end
  end.

(** [s.strip()]. *)
Definition strip (s : string) : string := rstrip_by isspace (lstrip_by isspace s).

(** [s.rstrip("/")]. *)
Definition rstrip_slash (s : string) : string := rstrip_by (Ascii.eqb "/") s.

(** [sub in s]. *)
Fixpoint contains (sub s : string) : bool :=
  match s with
  | EmptyString => String.prefix sub EmptyString
  | String _ r => String.prefix sub s || contains sub r
  end.

(** [c in s] for a single character. *)
Fixpoint mem_char (c : ascii) (s : string) : bool :=
  match s with
  | EmptyString => false
  | String a r => Ascii.eqb a c || mem_char c r
  end.

(** [s.find(sub)]; [None] stands for -1. *)
Fixpoint find (sub s : string) : option nat :=
  if String.prefix sub s then Some 0
  else match s with
       | EmptyString => None
       | String _ r => option_map S (find sub r)
       end.

(** [s[n:]] and [s[:n]]. *)
Fixpoint drop (n : nat) (s : string) : string :=
  match n, s with
  | S n', String _ r => drop n' r
  | _, _ => s
  end.

Fixpoint take (n : nat) (s : string) : string :=
  match n, s with
  | S n', String c r => String c (take n' r)
  | _, _ => EmptyString
  end.

(** [s.endswith(suffix)]. *)
Definition endswith (s suffix : string) : bool :=
  String.eqb (drop (String.length s - String.length suffix) s) suffix
  && Nat.leb (String.length suffix) (String.length s).

(** [s.replace(c, "")] for a set of characters. *)
Fixpoint remove_chars (p : ascii -> bool) (s : string) : string :=
  match s with
  | EmptyString => EmptyString
  | String c r => if p c then remove_chars p r else String c (remove_chars p r)
  end.

(** [s.replace(a, b)] for single characters. *)
Fixpoint replace_char (a b : ascii) (s : string) : string :=
  match s with
  | EmptyString => EmptyString
  | String c r => String (if Ascii.eqb c a then b else c) (replace_char a b r)
  end.

(** [s.partition(c)]: the text before and after the first [c], when there
    is one. *)
Fixpoint partition (c : ascii) (s : string) : option (string * string) :=
  match s with
  | EmptyString => None
  | String a r =>
      if Ascii.eqb a c then Some (EmptyString, r)
      else match partition c r with
           | Some (pre, post) => Some (String a pre, post)
           | None => None
           end
  end.

(** [s.rfind(c)] for a single character. *)
Fixpoint rfind_char (c : ascii) (s : string) : option nat :=
  match s with
  | EmptyString => None
  | String a r =>
      match rfind_char c r with
      | Some i => Some (S i)
      | None => if Ascii.eqb a c then Some 0 else None
      end
  end.

(** [s.split(c)] for a single character: never the empty list. *)
Fixpoint split (c : ascii) (s : string) : list string :=
  match s with
  | EmptyString => [EmptyString]
  | String a r =>
      if Ascii.eqb a c then EmptyString :: split c r
      else match split c r with
           | h :: t => String a h :: t
           | [] => [String a EmptyString]
           end
  end.

(** [sep.join(parts)]. *)
Definition join (sep : string) (parts : list string) : string :=
  String.concat sep parts.

(** The longest prefix of characters satisfying [p], and the rest. *)
Fixpoint span (p : ascii -> bool) (s : string) : string * string :=
  match s with
  | EmptyString => (EmptyString, EmptyString)
  | String c r =>
      if p c then let '(a, b) := span p r in (String c a, b)
      else (EmptyString, s)
  end.

(** [all(p(c) for c in s)]. *)
Fixpoint all_chars (p : ascii -> bool) (s : string) : bool :=
  match s with
  | EmptyString => true
  | String c r => p c && all_chars p r
  end.

Definition str_in (s : string) (l : list string) : bool :=
  existsb (String.eqb s) l.

End Py.

(** ** The standard library: [urllib.parse] *)

(** Two library functions are not modelled and are taken as parameters:
    [_check_bracketed_netloc], which validates a bracketed host with the
    [ipaddress] and [re] modules ([false] when it raises [ValueError]), and
    [unquote], whose result for an escape above [%7F] depends on UTF-8
    decoding and may leave the modelled alphabet. *)
Record Externals : Type := {
  bracketed_netloc_ok : string -> bool;
  unquote : string -> string
}.

Module Urllib.

Definition uses_relative : list string :=
  [""; "ftp"; "http"; "gopher"; "nntp"; "imap"; "wais"; "file"; "https";
   "shttp"; "mms"; "prospero"; "rtsp"; "rtspu"; "sftp"; "svn"; "svn+ssh";
   "ws"; "wss"].

Definition uses_netloc : list string :=
  [""; "ftp"; "http"; "gopher"; "nntp"; "telnet"; "imap"; "wais"; "file";
   "mms"; "https"; "shttp"; "snews"; "prospero"; "rtsp"; "rtspu"; "rsync";
   "svn"; "svn+ssh"; "sftp"; "nfs"; "git"; "git+ssh"; "ws"; "wss"].

Definition uses_params : list string :=
  [""; "ftp"; "hdl"; "prospero"; "http"; "imap"; "https"; "shttp"; "rtsp";
   "rtspu"; "sip"; "sips"; "mms"; "sftp"; "tel"].

(** [c in scheme_chars]. *)
Definition scheme_char (c : ascii) : bool :=
  Py.is_ascii_alpha c || Py.is_digit c || Py.mem_char c "+-.".

(** [c in _WHATWG_C0_CONTROL_OR_SPACE]. *)
Definition c0_control_or_space (c : ascii) : bool := (N_of_ascii c <=? 32)%N.

(** [c in _UNSAFE_URL_BYTES_TO_REMOVE]: tab, carriage return, line feed. *)
Definition unsafe_url_byte (c : ascii) : bool :=
  let n := N_of_ascii c in ((n =? 9) || (n =? 13) || (n =? 10))%N.

Record SplitResult : Type := mkSplit {
  s_scheme : string;
  s_netloc : string;
  s_path : string;
  s_query : string;
  s_fragment : string
}.

Record ParseResult : Type := mkParse {
  scheme : string;
  netloc : string;
  path : string;
  params : string;
  query : string;
  fragment : string
}.

(** The scheme test of [urlsplit]: [i = url.find(':')], [i > 0], a first
    character that is an ASCII letter and only scheme characters before
    the colon. *)
Definition split_scheme (url scheme : string) : string * string :=
  match Py.partition ":" url with
  | Some (String c0 pre, rest) =>
      if Py.is_ascii_alpha c0 && Py.all_chars scheme_char (String c0 pre)
      then (Py.lower (String c0 pre), rest)
      else (scheme, url)
  | _ => (scheme, url)
  end.

(** [_splitnetloc(url, 2)]. *)
Definition splitnetloc (url : string) : string * string :=
  Py.span (fun c => negb (Py.mem_char c "/?#")) (Py.drop 2 url).

(** [url.split(c, 1)] when [c in url], the text unchanged otherwise. *)
Definition split_off (c : ascii) (url : string) : string * string :=
  match Py.partition c url with
  | Some (a, b) => (a, b)
  | None => (url, EmptyString)
  end.

Section WithExternals.

Variable L : Externals.

(** [urlsplit(url, scheme)], with [allow_fragments] at its default.
    [_checknetloc] is left out: it raises only when the NFKC form of a
    non-ASCII netloc contains one of [/?#@:], which no code point
    below 256 produces. *)
Definition urlsplit (url scheme : string) : outcome SplitResult :=
  let url := Py.lstrip_by c0_control_or_space url in
  let scheme :=
    Py.rstrip_by c0_control_or_space (Py.lstrip_by c0_control_or_space scheme) in
  let url := Py.remove_chars unsafe_url_byte url in
  let scheme := Py.remove_chars unsafe_url_byte scheme in
  let '(scheme, url) := split_scheme url scheme in
  do r <-
    (if String.prefix "//" url then
       let '(netloc, rest) := splitnetloc url in
       let open := Py.mem_char "[" netloc in
       let close := Py.mem_char "]" netloc in
       if (open && negb close) || (close && negb open) then Raise ValueError
       else if open && close && negb (bracketed_netloc_ok L netloc)
            then Raise ValueError
            else Ret (netloc, rest)
     else Ret (EmptyString, url));
  let '(netloc, url) := r in
  let '(url, fragment) := split_off "#" url in
  let '(url, query) := split_off "?" url in
  Ret (mkSplit scheme netloc url query fragment).

(** [_splitparams(url)]. *)
Definition splitparams (url : string) : string * string :=
  if Py.mem_char "/" url then
    match Py.rfind_char "/" url with
    | Some r =>
        match Py.partition ";" (Py.drop r url) with
        | Some (pre, post) => (Py.take r url ++ pre, post)
        | None => (url, EmptyString)
        end
    | None => (url, EmptyString)
    end
  else
    match Py.partition ";" url with
    | Some (pre, post) => (pre, post)
    | None => (Py.take (String.length url - 1) url, url)
    end.

(** [urlparse(url, scheme)]. *)
Definition urlparse (url scheme : string) : outcome ParseResult :=
  do r <- urlsplit url scheme;
  let '(url, params) :=
    if Py.str_in (s_scheme r) uses_params && Py.mem_char ";" (s_path r)
    then splitparams (s_path r)
    else (s_path r, EmptyString) in
  Ret (mkParse (s_scheme r) (s_netloc r) url params (s_query r) (s_fragment r)).

(** [urlunsplit((scheme, netloc, url, query, fragment))]. *)
Definition urlunsplit (scheme netloc url query fragment : string) : string :=
  let url :=
    if Py.truthy netloc
       || (Py.truthy scheme && Py.str_in scheme uses_netloc
           && negb (String.prefix "//" url))
    then
      let url :=
        if Py.truthy url && negb (String.prefix "/" url) then "/" ++ url else url in
      "//" ++ netloc ++ url
    else url in
  let url := if Py.truthy scheme then scheme ++ ":" ++ url else url in
  let url := if Py.truthy query then url ++ "?" ++ query else url in
  if Py.truthy fragment then url ++ "#" ++ fragment else url.

(** [urlunparse((scheme, netloc, url, params, query, fragment))]. *)
Definition urlunparse (p : ParseResult) : string :=
  let url := if Py.truthy (params p) then path p ++ ";" ++ params p else path p in
  urlunsplit (scheme p) (netloc p) url (query p) (fragment p).

(** The loop of [urljoin] over the path segments. *)
Fixpoint resolve_segments (segments resolved : list string) : list string :=
  match segments with
  | [] => resolved
  | seg :: rest =>
      if String.eqb seg ".." then resolve_segments rest (removelast resolved)
      else if String.eqb seg "." then resolve_segments rest resolved
      else resolve_segments rest (resolved ++ [seg])%list
  end.

(** [segments[1:-1] = filter(None, segments[1:-1])]. *)
Definition filter_inner (segments : list string) : list string :=
  match segments with
  | first :: (_ :: _) as rest =>
      (first :: filter Py.truthy (removelast rest) ++ [last rest EmptyString])%list
  | _ => segments
  end.

(** [urljoin(base, url)]. *)
Definition urljoin (base url : string) : outcome string :=
  if negb (Py.truthy base) then Ret url
  else if negb (Py.truthy url) then Ret base
  else
    do b <- urlparse base EmptyString;
    do u <- urlparse url (scheme b);
    if negb (String.eqb (scheme u) (scheme b))
       || negb (Py.str_in (scheme u) uses_relative)
    then Ret url
    else if Py.str_in (scheme u) uses_netloc && Py.truthy (netloc u)
    then Ret (urlunparse u)
    else
      let netloc' := if Py.str_in (scheme u) uses_netloc then netloc b else netloc u in
      if negb (Py.truthy (path u)) && negb (Py.truthy (params u))
      then
        let query' := if Py.truthy (query u) then query u else query b in
        Ret (urlunparse
               (mkParse (scheme u) netloc' (path b) (params b) query' (fragment u)))
      else
        let base_parts := Py.split "/" (path b) in
        let base_parts :=
          if String.eqb (last base_parts EmptyString) EmptyString
          then base_parts else removelast base_parts in
        let segments :=
          if String.prefix "/" (path u) then Py.split "/" (path u)
          else filter_inner (base_parts ++ Py.split "/" (path u))%list in
        let resolved := resolve_segments segments [] in
        let resolved :=
          if Py.str_in (last segments EmptyString) ["."; ".."]
          then (resolved ++ [EmptyString])%list else resolved in
        let joined := Py.join "/" resolved in
        Ret (urlunparse
               (mkParse (scheme u) netloc'
                  (if Py.truthy joined then joined else "/")
                  (params u) (query u) (fragment u))).

(** [parse_qsl(qs)] with its defaults: blank values dropped, no strict
    parsing, separator [&]. *)
Definition parse_field (name_value : string) : list (string * string) :=
  if negb (Py.truthy name_value) then []
  else
    match Py.partition "=" name_value with
    | None => []
    | Some (name, value) =>
        if Py.truthy value
        then [(unquote L (Py.replace_char "+" " " name),
               unquote L (Py.replace_char "+" " " value))]
        else []
    end.

Definition parse_qsl (qs : string) : list (string * string) :=
  if Py.truthy qs then flat_map parse_field (Py.split "&" qs) else [].

(** The dictionary of [parse_qs]: names in order of first appearance,
    each with its values in order. *)
Fixpoint dict_add (d : list (string * list string)) (name value : string)
  : list (string * list string) :=
  match d with
  | [] => [(name, [value])]
  | (k, vs) :: d' =>
      if String.eqb k name then (k, (vs ++ [value])%list) :: d'
      else (k, vs) :: dict_add d' name value
  end.

Definition parse_qs (qs : string) : list (string * list string) :=
  fold_left (fun d nv => dict_add d (fst nv) (snd nv)) (parse_qsl qs) [].

(** [d.get(key)]. *)
Fixpoint dict_get (d : list (string * list string)) (key : string)
  : option (list string) :=
  match d with
  | [] => None
  | (k, vs) :: d' => if String.eqb k key then Some vs else dict_get d' key
  end.

End WithExternals.

End Urllib.

(** ** scrape_links.py *)

Definition REDIRECT_PREFIX : string := "https://www.youtube.com/redirect".
Definition YOUTUBE_ORIGIN : string := "https://www.youtube.com".
Definition PROXY_PREFIX : string := "https://r.jina.ai/".

(** [_normalise_column_name]: [name.strip().lower().replace("_", " ")]. *)
Definition _normalise_column_name (name : string) : string :=
  Py.replace_char "_" " " (Py.lower (Py.strip name)).

Record Subscription : Type := mkSubscription {
  title : string;
  url : string;
  channel_id : option string
}.

(** *** SubscriptionReader *)

(** A row as [csv.DictReader] yields it to [read]: the header fields in
    order, each with the cell of the row, [None] where the row is shorter
    than the header ([restval]); when the row is longer than the header,
    the fields beyond it come last under the key [None] ([restkey]). *)
Inductive Column : Type :=
| Field (raw_key : string) (value : option string)
| Surplus (fields : list string).

Definition Row : Type := list Column.

(** [SubscriptionReader._get_first].  The key [None] has no [strip]:
    reaching it raises [AttributeError] in [_normalise_column_name]. *)
Fixpoint _get_first (row : Row) (keys : list string) : outcome (option string) :=
  match row with
  | [] => Ret None
  | Field raw_key value :: rest =>
      if Py.str_in (_normalise_column_name raw_key) keys then Ret value
      else _get_first rest keys
  | Surplus _ :: _ => Raise (OtherException "AttributeError")
  end.

(** [SubscriptionReader._row_to_subscription]. *)
Definition _row_to_subscription (row : Row) : outcome (option Subscription) :=
  do title <- _get_first row ["channel title"; "title"];
  do url <- _get_first row ["channel url"; "url"];
  do channel_id <- _get_first row ["channel id"; "id"];
  let url :=
    match channel_id with
    | Some id =>
        if negb (Py.otruthy url) && Py.truthy id
        then Some (YOUTUBE_ORIGIN ++ "/channel/" ++ Py.strip id)
        else url
    | None => url
    end in
  match title, url with
  | Some t, Some u =>
      if negb (Py.truthy t) || negb (Py.truthy u) then Ret None
      else Ret (Some (mkSubscription (Py.strip t) (Py.strip u) channel_id))
  | _, _ => Ret None
  end.

(** The loop of [SubscriptionReader.read] over the rows of the file; an
    exception of a row ends it. *)
Fixpoint read_rows (rows : list Row) : outcome (list Subscription) :=
  match rows with
  | [] => Ret []
  | row :: rest =>
      do sub <- _row_to_subscription row;
      do subscriptions <- read_rows rest;
      Ret (match sub with
           | Some sub => sub :: subscriptions
           | None => subscriptions
           end)
  end.

(** *** _iter_redirect_urls *)

(** The inner [while] of [_iter_redirect_urls]: a candidate runs over the
    characters that are neither whitespace nor a closing parenthesis. *)
Definition candidate_char (c : ascii) : bool :=
  negb (Py.isspace c) && negb (Ascii.eqb c ")").

(** [_iter_redirect_urls], on the text from [start] on.  Each round finds
    the next occurrence of the prefix, yields the candidate and continues
    after it; [fuel] bounds the number of rounds. *)
Fixpoint iter_redirect_from (fuel : nat) (text : string) : list string :=
  match fuel with
  | O => []
  | S fuel' =>
      match Py.find REDIRECT_PREFIX text with
      | None => []
      | Some idx =>
          let '(candidate, rest) := Py.span candidate_char (Py.drop idx text) in
          candidate :: iter_redirect_from fuel' rest
      end
  end.

Definition _iter_redirect_urls (page_text : string) : list string :=
  iter_redirect_from (S (String.length page_text)) page_text.

(** *** parse_channel_links *)

Definition events_priority : list string :=
  ["channel_header"; "channel_about_metadata"; "channel_description"].

(** [event_order.get(event, len(events_priority))]. *)
Fixpoint index_or_length (event : string) (l : list string) : nat :=
  match l with
  | [] => 0
  | e :: rest => if String.eqb e event then 0 else S (index_or_length event rest)
  end.

Definition event_rank (event : string) : nat := index_or_length event events_priority.

(** An entry of [structured]: [(event, dest, idx)]. *)
Definition Item : Type := (string * string * nat)%type.

Definition item_event (it : Item) : string := fst (fst it).
Definition item_dest (it : Item) : string := snd (fst it).
Definition item_idx (it : Item) : nat := snd it.

(** The sort key of [parse_channel_links]. *)
Definition sort_key (it : Item) : nat * nat := (event_rank (item_event it), item_idx it).

(** Python's order on pairs of integers. *)
Definition key_leb (a b : nat * nat) : bool :=
  Nat.ltb (fst a) (fst b) || (Nat.eqb (fst a) (fst b) && Nat.leb (snd a) (snd b)).

(** [list.sort(key=...)]: a stable sort, as an insertion sort that keeps
    equal keys in their original order. *)
Fixpoint insert_by_key (x : Item) (l : list Item) : list Item :=
  match l with
  | [] => [x]
  | y :: rest =>
      if key_leb (sort_key x) (sort_key y) then x :: y :: rest
      else y :: insert_by_key x rest
  end.

Fixpoint sort_by_key (l : list Item) : list Item :=
  match l with
  | [] => []
  | x :: rest => insert_by_key x (sort_by_key rest)
  end.

(** The last loop of [parse_channel_links]: [seen] is the set of kept
    destinations, [links] the list built so far. *)
Fixpoint collect_links (structured : list Item) (seen links : list string)
  : list string :=
  match structured with
  | [] => links
  | it :: rest =>
      if negb (Py.truthy (item_dest it)) || Py.str_in (item_dest it) seen
      then collect_links rest seen links
      else collect_links rest (item_dest it :: seen) (links ++ [item_dest it])%list
  end.

Section Parser.

Variable L : Externals.

(** The body of the first loop of [parse_channel_links] for the candidate
    number [idx]: the entries it appends to [structured]. *)
Definition parse_candidate (idx : nat) (raw_url : string) : outcome (list Item) :=
  do parsed <- Urllib.urlparse L raw_url EmptyString;
  let params := Urllib.parse_qs L (Urllib.query parsed) in
  match Urllib.dict_get params "q" with
  | None | Some [] => Ret []
  | Some (target :: _) =>
      let dest := unquote L target in
      match Urllib.dict_get params "event" with
      | None => Ret [(EmptyString, dest, idx)]
      | Some (event :: _) => Ret [(event, dest, idx)]
      | Some [] => Raise (OtherException "IndexError")
      end
  end.

Fixpoint build_structured (idx : nat) (candidates : list string)
  : outcome (list Item) :=
  match candidates with
  | [] => Ret []
  | raw_url :: rest =>
      do items <- parse_candidate idx raw_url;
      do more <- build_structured (S idx) rest;
      Ret (items ++ more)%list
  end.

Definition structured_of (page_text : string) : outcome (list Item) :=
  build_structured 0 (_iter_redirect_urls page_text).

Definition parse_channel_links (page_text : string) : outcome (list string) :=
  do structured <- structured_of page_text;
  Ret (collect_links (sort_by_key structured) [] []).

End Parser.

(** *** normalise_channel_url *)

Section Normaliser.

Variable L : Externals.

(** Lines 85 to 91 of [normalise_channel_url]: the URL stripped, parsed
    with the default scheme [https] and, without a netloc, resolved
    against the YouTube origin and parsed again. *)
Definition resolve_channel_url (url : string) : outcome Urllib.ParseResult :=
  let url := Py.strip url in
  do parsed <- Urllib.urlparse L url "https";
  if negb (Py.truthy (Urllib.netloc parsed)) then
    do url <- Urllib.urljoin L YOUTUBE_ORIGIN url;
    Urllib.urlparse L url EmptyString
  else if negb (Py.truthy (Urllib.scheme parsed)) then
    Ret (Urllib.mkParse "https" (Urllib.netloc parsed) (Urllib.path parsed)
           (Urllib.params parsed) (Urllib.query parsed) (Urllib.fragment parsed))
  else Ret parsed.

(** Lines 95 to 97: the path without trailing slashes and without one
    trailing [/about]. *)
Definition channel_path (parsed : Urllib.ParseResult) : string :=
  let path := Py.rstrip_slash (Urllib.path parsed) in
  if Py.endswith path "/about"
  then Py.take (String.length path - String.length "/about") path
  else path.

(** Lines 98 to 101. *)
Definition canonical_base (path : string) (channel_id : option string) : string :=
  let base :=
    Urllib.urlunparse
      (Urllib.mkParse "https" "www.youtube.com" path EmptyString EmptyString
         EmptyString) in
  match channel_id with
  | Some id =>
      if Py.truthy id && negb (Py.contains "/channel/" path)
      then YOUTUBE_ORIGIN ++ "/channel/" ++ Py.strip id
      else base
  | None => base
  end.

Definition normalise_channel_url (url : string) (channel_id : option string)
  : outcome (option string) :=
  if negb (Py.truthy url) then Ret None
  else
    do parsed <- resolve_channel_url url;
    let netloc := Py.lower (Urllib.netloc parsed) in
    if negb (Py.contains "youtube" netloc) then Ret None
    else Ret (Some (canonical_base (channel_path parsed) channel_id)).

(** [Subscription.about_url]. *)
Definition about_url (sub : Subscription) : outcome string :=
  do base_url <- normalise_channel_url (url sub) (channel_id sub);
  if negb (Py.otruthy base_url) then Raise ValueError
  else
    match base_url with
    | Some b => Ret (b ++ "/about")
    | None => Raise ValueError
    end.

End Normaliser.

(** *** scrape_links *)

(** A result record: the dictionary appended to [results]. *)
Record ChannelResult : Type := mkResult {
  channel_title : string;
  channel_url : string;
  links : list string
}.

(** The statements of the loop body, as the places where a
    [KeyboardInterrupt] can be delivered. *)
Inductive point : Type :=
| AtProgress | AtAboutUrl | AtSkipNotice | AtFetch | AtFailNotice
| AtParse | AtFilter | AtNormalise | AtUpdate | AtReport | AtSleep.

(** The world outside the program: what [urlopen] gives for the request of
    the iteration [index] to a target, and whether the user interrupts the
    iteration [index] at a given statement. *)
Record World : Type := {
  urlopen : nat -> string -> outcome string;
  interrupt : nat -> point -> bool
}.

(** [fetch_about_page]: the page is requested through the proxy. *)
Definition fetch_about_page (W : World) (index : nat) (about_url : string)
  : outcome string :=
  urlopen W index (PROXY_PREFIX ++ about_url).

(** [lowered_filters]: [None] without filters or with the empty list. *)
Definition lower_filters (url_filters : option (list string)) : option (list string) :=
  match url_filters with
  | Some (f :: fs) => Some (map Py.lower (f :: fs))
  | Some [] | None => None
  end.

(** Lines 191 to 196: the allow-list filter on the parsed links. *)
Definition filter_links (lowered_filters : option (list string)) (links : list string)
  : list string :=
  match lowered_filters with
  | Some filters =>
      filter
        (fun link =>
           existsb (fun filter_value => Py.contains filter_value (Py.lower link)) filters)
        links
  | None => links
  end.

(** The loop runs in a state and exception monad: the state is [results],
    which an exception leaves as it is. *)
Definition Loop (A : Type) : Type :=
  list ChannelResult -> list ChannelResult * outcome A.

Definition lret {A : Type} (a : A) : Loop A := fun results => (results, Ret a).

Definition lraise {A : Type} (e : exn) : Loop A := fun results => (results, Raise e).

Definition lbind {A B : Type} (m : Loop A) (k : A -> Loop B) : Loop B :=
  fun results =>
    match m results with
    | (results', Ret a) => k a results'
    | (results', Raise e) => (results', Raise e)
    end.

Definition lift {A : Type} (o : outcome A) : Loop A := fun results => (results, o).

(** [try: m] with the exception, if any, handed to the handlers. *)
Definition try_ {A : Type} (m : Loop A) : Loop (outcome A) :=
  fun results => let '(results', o) := m results in (results', Ret o).

(** [results.append(record)]. *)
Definition append (record : ChannelResult) : Loop unit :=
  fun results => ((results ++ [record])%list, Ret tt).

Declare Scope loop_scope.
Delimit Scope loop_scope with loop.
Notation "x <- m ;; k" := (lbind m (fun x => k))
  (at level 61, m at next level, right associativity) : loop_scope.
Notation "m ;; k" := (lbind m (fun _ => k))
  (at level 61, right associativity) : loop_scope.

Section Scraper.

Variable L : Externals.
Variable W : World.

(** [on_update]: the callback gets a copy of [results]; it may raise. *)
Variable on_update : option (list ChannelResult -> outcome unit).

Variable lowered_filters : option (list string).

(** A statement of the loop body as a place where the user may interrupt.
    The statements that print or sleep are taken to complete unless they
    are interrupted: an encoding error or a closed pipe in [print] and an
    overflowing delay in [time.sleep] are outside this model, and so are
    the parameters [progress] and [delay], which only decide whether these
    statements run. *)
Definition tick (index : nat) (p : point) : Loop unit :=
  fun results =>
    (results, if interrupt W index p then Raise KeyboardInterrupt else Ret tt).

Definition call_on_update : Loop unit :=
  match on_update with
  | Some callback => fun results => (results, callback results)
  | None => lret tt
  end.

(** The body of the [for] loop (lines 175 to 221).  Printing and sleeping
    leave [results] alone and appear as interruption points only. *)
Definition iteration (index : nat) (subscription : Subscription) : Loop unit :=
  (tick index AtProgress ;;
   about <- try_ (tick index AtAboutUrl ;; lift (about_url L subscription)) ;;
   match about with
   | Raise e => if is_ValueError e then tick index AtSkipNotice else lraise e
   | Ret about_url =>
       page <- try_ (tick index AtFetch ;; lift (fetch_about_page W index about_url)) ;;
       match page with
       | Raise e => if is_Exception e then tick index AtFailNotice else lraise e
       | Ret page_text =>
           tick index AtParse ;;
           links <- lift (parse_channel_links L page_text) ;;
           tick index AtFilter ;;
           let links := filter_links lowered_filters links in
           tick index AtNormalise ;;
           canonical_url <-
             lift (normalise_channel_url L (url subscription) (channel_id subscription)) ;;
           append
             (mkResult (title subscription)
                (match canonical_url with
                 | Some c => if Py.truthy c then c else url subscription
                 | None => url subscription
                 end)
                links) ;;
           tick index AtUpdate ;;
           call_on_update ;;
           tick index AtReport ;;
           tick index AtSleep
       end
   end)%loop.

(** [for index, subscription in enumerate(subscriptions_list, start=...)]. *)
Fixpoint for_each (index : nat) (subscriptions : list Subscription) : Loop unit :=
  match subscriptions with
  | [] => lret tt
  | subscription :: rest =>
      (iteration index subscription ;; for_each (S index) rest)%loop
  end.

End Scraper.

(** [scrape_links]: the loop from [index = 1] and an empty [results], under
    the handler of [KeyboardInterrupt]. *)
Definition scrape_links (L : Externals) (W : World)
    (subscriptions : list Subscription) (url_filters : option (list string))
    (on_update : option (list ChannelResult -> outcome unit))
  : outcome (list ChannelResult) :=
  match for_each L W on_update (lower_filters url_filters) 1 subscriptions [] with
  | (results, Ret _) => Ret results
  | (results, Raise e) => if is_KeyboardInterrupt e then Ret results else Raise e
  end.

(** ** An instance of the library parameters, for the examples *)

Definition hex_value (c : ascii) : option N :=
  let n := N_of_ascii c in
  if Py.in_range 48 57 n then Some (n - 48)%N
  else if Py.in_range 65 70 n then Some (n - 55)%N
  else if Py.in_range 97 102 n then Some (n - 87)%N
  else None.

(** [unquote] on the escapes [%00] to [%7F], each of which stands for one
    ASCII character; an escape above [%7F] is kept as it is written. *)
Fixpoint unquote_ascii (s : string) : string :=
  match s with
  | EmptyString => EmptyString
  | String c r =>
      match r with
      | String a (String b r') =>
          match hex_value a, hex_value b with
          | Some h, Some l =>
              if Ascii.eqb c "%" && (h <? 8)%N
              then String (ascii_of_N (16 * h + l)) (unquote_ascii r')
              else String c (unquote_ascii r)
          | _, _ => String c (unquote_ascii r)
          end
      | _ => String c (unquote_ascii r)
      end
  end.

(** The example instance refuses every bracketed host. *)
Definition example_externals : Externals :=
  {| bracketed_netloc_ok := fun _ => false; unquote := unquote_ascii |}.

(** A world that serves one page for every request and never interrupts. *)
Definition quiet_world (page_text : string) : World :=
  {| urlopen := fun _ _ => Ret page_text; interrupt := fun _ _ => false |}.



(** A world without interrupts in which the request of the iteration
    [fail_index] fails. *)
Definition failing_world (page_text : string) (fail_index : nat) : World :=
  {| urlopen := fun i _ =>
       if Nat.eqb i fail_index then Raise (OtherException "URLError")
       else Ret page_text;
     interrupt := fun _ _ => false |}.

Definition example_page : string :=
  "[site](https://www.youtube.com/redirect?event=channel_header&q=https%3A%2F%2Fexample.com) [t](https://www.youtube.com/redirect?event=channel_description&q=https%3A%2F%2FTwitter.com%2Ffoo)".

Definition example_subscriptions : list Subscription :=
  [mkSubscription "Foo" "https://www.youtube.com/c/foo" None;
   mkSubscription "Bar" "https://www.youtube.com/@bar/about" (Some "UCbar");
   mkSubscription "Baz" "https://example.org/baz" None;
   mkSubscription "Qux" "/user/qux/" None].

(** ** Notions used in the statements *)

(** The three lookups of [_row_to_subscription]. *)
Definition row_title (row : Row) : outcome (option string) :=
  _get_first row ["channel title"; "title"].
Definition row_url (row : Row) : outcome (option string) :=
  _get_first row ["channel url"; "url"].
Definition row_channel_id (row : Row) : outcome (option string) :=
  _get_first row ["channel id"; "id"].

(** A row without surplus fields: it has no more fields than the header. *)
Definition no_surplus (row : Row) : bool :=
  forallb (fun column => match column with
                         | Field _ _ => true
                         | Surplus _ => false
                         end) row.


(** The value of [netloc] at line 92 of [normalise_channel_url]: the host
    the URL resolves to. *)
Definition resolved_host (L : Externals) (url : string) : outcome string :=
  do parsed <- resolve_channel_url L url;
  Ret (Py.lower (Urllib.netloc parsed)).

(** The test of line 93: a YouTube host contains [youtube]. *)
Definition is_youtube_host (host : string) : bool := Py.contains "youtube" host.

(** The value of [path] after line 97: the path the URL resolves to,
    without trailing slashes and without one trailing [/about]. *)
Definition computed_path (L : Externals) (url : string) : outcome string :=
  do parsed <- resolve_channel_url L url;
  Ret (channel_path parsed).

(** The path of a canonical URL: what follows the origin. *)
Definition canonical_path_of (canonical : string) : string :=
  Py.drop (String.length YOUTUBE_ORIGIN) canonical.

(** A path that a second normalisation reads back unchanged: no
    whitespace, none of [?], [#] and [;], no trailing slash and no trailing
    [/about]. *)
Definition plain_char (c : ascii) : bool :=
  negb (Py.isspace c) && negb (Py.mem_char c "?#;").

Definition plain_path (p : string) : bool :=
  Py.all_chars plain_char p
  && String.eqb (Py.rstrip_slash p) p
  && negb (Py.endswith p "/about").

(** The order of the sort key: rank of the tag first, discovery index
    second. *)
Definition key_le (a b : Item) : Prop :=
  event_rank (item_event a) < event_rank (item_event b)
  \/ (event_rank (item_event a) = event_rank (item_event b)
      /\ item_idx a <= item_idx b).

(** The entries whose destination [collect_links] keeps. *)
Fixpoint kept_items (structured : list Item) (seen : list string) : list Item :=
  match structured with
  | [] => []
  | it :: rest =>
      if negb (Py.truthy (item_dest it)) || Py.str_in (item_dest it) seen
      then kept_items rest seen
      else it :: kept_items rest (item_dest it :: seen)
  end.

(** The position of the first occurrence of [d] in [l] (its length when
    there is none). *)
Fixpoint first_index (d : string) (l : list string) : nat :=
  match l with
  | [] => 0
  | x :: rest => if String.eqb x d then 0 else S (first_index d rest)
  end.

(** The subscriptions of a run whose page is fetched: the about URL is
    determined and the request of their iteration returns a page. *)
Definition fetched (L : Externals) (W : World) (index : nat) (sub : Subscription)
  : bool :=
  match about_url L sub with
  | Ret about =>
      match fetch_about_page W index about with
      | Ret _ => true
      | Raise _ => false
      end
  | Raise _ => false
  end.

Fixpoint fetched_from (L : Externals) (W : World) (index : nat)
    (subscriptions : list Subscription) : list Subscription :=
  match subscriptions with
  | [] => []
  | sub :: rest =>
      if fetched L W index sub then sub :: fetched_from L W (S index) rest
      else fetched_from L W (S index) rest
  end.

(** A candidate is the redirect prefix followed by characters that are
    neither whitespace nor a closing parenthesis. *)
Definition is_candidate (raw_url : string) : Prop :=
  exists x, raw_url = REDIRECT_PREFIX ++ x /\ Py.all_chars candidate_char x = true.

(** The record [scrape_links] appends for a subscription: the canonical
    URL of the subscription and the filtered links of its page. *)
Definition record_of (L : Externals) (W : World) (lowered_filters : option (list string))
    (index : nat) (sub : Subscription) (r : ChannelResult) : Prop :=
  exists about page parsed c,
    about_url L sub = Ret about
    /\ fetch_about_page W index about = Ret page
    /\ parse_channel_links L page = Ret parsed
    /\ normalise_channel_url L (url sub) (channel_id sub) = Ret (Some c)
    /\ Py.truthy c = true
    /\ r = mkResult (title sub) c (filter_links lowered_filters parsed).

(** The records appended to [results] in a run, whether it returns or
    raises. *)
Definition appended (L : Externals) (W : World) (subscriptions : list Subscription)
    (url_filters : option (list string))
    (on_update : option (list ChannelResult -> outcome unit)) : list ChannelResult :=
  fst (for_each L W on_update (lower_filters url_filters) 1 subscriptions []).

(** A link matches a filter term when, both in lower case, the term is a
    substring of the link. *)
Definition matches_filter (filter_term link : string) : Prop :=
  Py.contains (Py.lower filter_term) (Py.lower link) = true.

(** A link passes the filters when there is none or it matches one. *)
Definition allowed (url_filters : option (list string)) (link : string) : Prop :=
  match url_filters with
  | Some (f :: fs) => exists term, In term (f :: fs) /\ matches_filter term link
  | Some [] | None => True
  end.

(** A path none of whose segments is [.] or [..]. *)
Definition no_dot_segments (p : string) : bool :=
  forallb (fun seg => negb (String.eqb seg ".." || String.eqb seg "."))
    (Py.split "/" p).

(** A destination of [structured] is the decoded first [q] value of a
    candidate. *)
Definition decoded_target (L : Externals) (raw_url dest : string) : Prop :=
  exists parsed target more,
    Urllib.urlparse L raw_url EmptyString = Ret parsed
    /\ Urllib.dict_get (Urllib.parse_qs L (Urllib.query parsed)) "q"
       = Some (target :: more)
    /\ dest = unquote L target.

(** A redirect link read by itself: [event] is the first value of its
    [event] parameter, the empty string when it has none, and [dest] the
    decoded first value of its [q] parameter. *)
Definition redirect_link (L : Externals) (raw_url event dest : string) : Prop :=
  exists parsed target more,
    Urllib.urlparse L raw_url EmptyString = Ret parsed
    /\ Urllib.dict_get (Urllib.parse_qs L (Urllib.query parsed)) "q"
       = Some (target :: more)
    /\ dest = unquote L target
    /\ ((Urllib.dict_get (Urllib.parse_qs L (Urllib.query parsed)) "event" = None
         /\ event = EmptyString)
        \/ exists events,
             Urllib.dict_get (Urllib.parse_qs L (Urllib.query parsed)) "event"
             = Some (event :: events)).

(** A text at which a candidate ends: the empty text, or one that starts
    with whitespace or a closing parenthesis. *)
Definition ends_candidate (text : string) : bool :=
  match text with
  | EmptyString => true
  | String c _ => negb (candidate_char c)
  end.

(** The text between two links: it is not empty, a candidate ends at it,
    and the redirect prefix does not occur in it. *)
Definition separator (text : string) : bool :=
  Py.truthy text && ends_candidate text && negb (Py.contains REDIRECT_PREFIX text).

(** [a] is [b] with some elements left out, the order kept. *)
Inductive subsequence {A : Type} : list A -> list A -> Prop :=
| subsequence_nil : forall l, subsequence [] l
| subsequence_take : forall x a b, subsequence a b -> subsequence (x :: a) (x :: b)
| subsequence_skip : forall x a b, subsequence a b -> subsequence a (x :: b).

(** A world that answers the requests sent through the proxy for a page of
    the YouTube origin and fails every other request. *)
Definition proxy_only_world (page_text : string) : World :=
  {| urlopen := fun _ target =>
       if String.prefix (PROXY_PREFIX ++ YOUTUBE_ORIGIN) target then Ret page_text
       else Raise (OtherException "HTTPError");
     interrupt := fun _ _ => false |}.

(** ** Properties of the string functions *)

Lemma some_inj {A : Type} (a b : A) : Some a = Some b -> a = b.
Proof. congruence. Qed.

Lemma truthy_false (s : string) : Py.truthy s = false -> s = EmptyString.
Proof. destruct s; [reflexivity | discriminate]. Qed.

Lemma truthy_true (s : string) : Py.truthy s = true -> s <> EmptyString.
Proof. destruct s; [discriminate | intros _ H; discriminate H]. Qed.

Lemma rstrip_by_app (p : ascii -> bool) (a b : string) :
  Py.rstrip_by p (a ++ b) =
  match Py.rstrip_by p b with
  | EmptyString => Py.rstrip_by p a
  | b' => a ++ b'
  end.
Proof.
  induction a as [| c a IH]; simpl.
  - destruct (Py.rstrip_by p b); reflexivity.
  - rewrite IH. destruct (Py.rstrip_by p b) as [| c' b']; [reflexivity |].
    destruct a; reflexivity.
Qed.

Lemma rstrip_by_idem (p : ascii -> bool) (s : string) :
  Py.rstrip_by p (Py.rstrip_by p s) = Py.rstrip_by p s.
Proof.
  induction s as [| c s IH]; simpl; [reflexivity |].
  destruct (Py.rstrip_by p s) as [| c' s'] eqn:E.
  - destruct (p c) eqn:Ep; simpl; [reflexivity | now rewrite Ep].
  - simpl. simpl in IH. rewrite IH. reflexivity.
Qed.

Lemma strip_rstrip (s : string) : Py.rstrip_by Py.isspace (Py.strip s) = Py.strip s.
Proof. unfold Py.strip. apply rstrip_by_idem. Qed.

(** A canonical channel URL built from a stripped id has no whitespace at
    either end. *)
Lemma strip_channel_url (id : string) :
  Py.strip (YOUTUBE_ORIGIN ++ "/channel/" ++ Py.strip id)
  = YOUTUBE_ORIGIN ++ "/channel/" ++ Py.strip id.
Proof.
  unfold Py.strip at 1.
  change (YOUTUBE_ORIGIN ++ "/channel/" ++ Py.strip id)
    with ("https://www.youtube.com/channel/" ++ Py.strip id).
  change (Py.lstrip_by Py.isspace ("https://www.youtube.com/channel/" ++ Py.strip id))
    with ("https://www.youtube.com/channel/" ++ Py.strip id).
  rewrite rstrip_by_app, strip_rstrip.
  destruct (Py.strip id); reflexivity.
Qed.

(** ** The subscription reader *)

Lemma synthesised_url_truthy (id : string) :
  Py.truthy (YOUTUBE_ORIGIN ++ "/channel/" ++ Py.strip id) = true.
Proof. reflexivity. Qed.




(** Without surplus fields a lookup returns. *)
Lemma get_first_returns (row : Row) (keys : list string) :
  no_surplus row = true -> exists value, _get_first row keys = Ret value.
Proof.
  induction row as [| [k v | fields] row IH]; cbn [no_surplus forallb _get_first].
  - eexists; reflexivity.
  - intros H. destruct (Py.str_in (_normalise_column_name k) keys);
      [eexists; reflexivity | exact (IH H)].
  - discriminate.
Qed.

(** [_row_to_subscription] returns only when its three lookups do. *)
Lemma row_lookups (row : Row) (r : option Subscription) :
  _row_to_subscription row = Ret r ->
  exists tv uv iv,
    row_title row = Ret tv /\ row_url row = Ret uv /\ row_channel_id row = Ret iv.
Proof.
  unfold _row_to_subscription, row_title, row_url, row_channel_id.
  destruct (_get_first row ["channel title"; "title"]) as [tv | e]; [| discriminate].
  destruct (_get_first row ["channel url"; "url"]) as [uv | e]; [| discriminate].
  destruct (_get_first row ["channel id"; "id"]) as [iv | e]; [| discriminate].
  intros _. exists tv, uv, iv. repeat split.
Qed.

(** [_row_to_subscription] by cases on what the three lookups return. *)
Lemma row_cases (row : Row) (tv uv iv : option string) :
  row_title row = Ret tv -> row_url row = Ret uv -> row_channel_id row = Ret iv ->
  _row_to_subscription row =
  Ret (let synthesised t :=
         match iv with
         | Some id =>
             if Py.truthy id
             then Some (mkSubscription (Py.strip t)
                          (YOUTUBE_ORIGIN ++ "/channel/" ++ Py.strip id) (Some id))
             else None
         | None => None
         end in
       match tv with
       | Some t =>
           if Py.truthy t then
             match uv with
             | Some u =>
                 if Py.truthy u
                 then Some (mkSubscription (Py.strip t) (Py.strip u) iv)
                 else synthesised t
             | None => synthesised t
             end
           else None
       | None => None
       end).
Proof.
  unfold _row_to_subscription, row_title, row_url, row_channel_id.
  intros -> -> ->. cbn [obind].
  destruct tv as [t |]; destruct uv as [u |]; destruct iv as [i |];
    try destruct t; try destruct u; try destruct i;
    cbn [negb orb andb Py.otruthy Py.truthy];
    rewrite ?synthesised_url_truthy; cbn [negb orb andb];
    rewrite ?strip_channel_url; reflexivity.
Qed.





(** A row with one field more than the header [Channel Id,Channel Title]:
    the URL lookup reaches the surplus fields and raises. *)
Example surplus_field_raises_example :
  _row_to_subscription
    [Field "Channel Id" (Some "UC1"); Field "Channel Title" (Some "Foo");
     Surplus ["extra"]]
  = Raise (OtherException "AttributeError")
  /\ read_rows
       [[Field "Channel Id" (Some "UC0"); Field "Channel Title" (Some "Bar")];
        [Field "Channel Id" (Some "UC1"); Field "Channel Title" (Some "Foo");
         Surplus ["extra"]]]
     = Raise (OtherException "AttributeError").
Proof. split; reflexivity. Qed.

(** ** The channel URL normaliser *)

Lemma plain_char_spec (c : ascii) :
  plain_char c = true ->
  Py.isspace c = false /\ Urllib.unsafe_url_byte c = false
  /\ Ascii.eqb c "#" = false /\ Ascii.eqb c "?" = false /\ Ascii.eqb c ";" = false.
Proof.
  destruct c as [[|] [|] [|] [|] [|] [|] [|] [|]]; vm_compute; intros H;
    try discriminate H; repeat split; reflexivity.
Qed.

Lemma plain_remove_unsafe (p : string) :
  Py.all_chars plain_char p = true -> Py.remove_chars Urllib.unsafe_url_byte p = p.
Proof.
  induction p as [| c p IH]; simpl; [reflexivity |].
  intros H. apply andb_prop in H. destruct H as [Hc Hp].
  destruct (plain_char_spec c Hc) as (_ & -> & _). now rewrite IH.
Qed.

Lemma plain_rstrip (p : string) :
  Py.all_chars plain_char p = true -> Py.rstrip_by Py.isspace p = p.
Proof.
  induction p as [| c p IH]; simpl; [reflexivity |].
  intros H. apply andb_prop in H. destruct H as [Hc Hp].
  rewrite (IH Hp). destruct (plain_char_spec c Hc) as (-> & _).
  destruct p; reflexivity.
Qed.

Lemma plain_partition (p : string) (sep : ascii) :
  Py.all_chars plain_char p = true ->
  sep = "#"%char \/ sep = "?"%char \/ sep = ";"%char ->
  Py.partition sep p = None.
Proof.
  intros H Hs. induction p as [| c p IH]; simpl; [reflexivity |].
  simpl in H. apply andb_prop in H. destruct H as [Hc Hp].
  destruct (plain_char_spec c Hc) as (_ & _ & H1 & H2 & H3).
  rewrite (IH Hp).
  destruct Hs as [-> | [-> | ->]]; [rewrite H1 | rewrite H2 | rewrite H3]; reflexivity.
Qed.

Lemma plain_no_semicolon (p : string) :
  Py.all_chars plain_char p = true -> Py.mem_char ";" p = false.
Proof.
  induction p as [| c p IH]; simpl; [reflexivity |].
  intros H. apply andb_prop in H. destruct H as [Hc Hp].
  destruct (plain_char_spec c Hc) as (_ & _ & _ & _ & ->). now rewrite IH.
Qed.

Lemma urlparse_canonical (L : Externals) (p : string) :
  p = EmptyString \/ String.prefix "/" p = true ->
  Py.all_chars plain_char p = true ->
  Urllib.urlparse L (YOUTUBE_ORIGIN ++ p) "https"
  = Ret (Urllib.mkParse "https" "www.youtube.com" p "" "" "").
Proof.
  intros Hshape Hp.
  unfold Urllib.urlparse, Urllib.urlsplit.
  change (Py.lstrip_by Urllib.c0_control_or_space (YOUTUBE_ORIGIN ++ p))
    with (YOUTUBE_ORIGIN ++ p).
  change (Py.remove_chars Urllib.unsafe_url_byte (YOUTUBE_ORIGIN ++ p))
    with (YOUTUBE_ORIGIN ++ Py.remove_chars Urllib.unsafe_url_byte p).
  rewrite (plain_remove_unsafe p Hp).
  change (Urllib.split_scheme (YOUTUBE_ORIGIN ++ p)
            (Py.remove_chars Urllib.unsafe_url_byte
               (Py.rstrip_by Urllib.c0_control_or_space
                  (Py.lstrip_by Urllib.c0_control_or_space "https"))))
    with ("https", "//www.youtube.com" ++ p).
  cbv beta iota.
  change (String.prefix "//" ("//www.youtube.com" ++ p)) with true.
  cbv beta iota.
  assert (Hnet : Urllib.splitnetloc ("//www.youtube.com" ++ p) = ("www.youtube.com", p)).
  { destruct Hshape as [-> | Hpre]; [reflexivity |].
    destruct p as [| c p']; [discriminate |].
    simpl in Hpre. destruct (Ascii.eqb_spec "/" c) as [<- |]; [reflexivity | ].
    destruct c as [[|] [|] [|] [|] [|] [|] [|] [|]]; try discriminate Hpre; congruence. }
  rewrite Hnet. cbn -[Urllib.split_off].
  unfold Urllib.split_off.
  rewrite (plain_partition p "#" Hp) by auto.
  rewrite (plain_partition p "?" Hp) by auto.
  cbn. rewrite (plain_no_semicolon p Hp). reflexivity.
Qed.

Lemma urlunparse_canonical (path : string) :
  Urllib.urlunparse (Urllib.mkParse "https" "www.youtube.com" path "" "" "")
  = YOUTUBE_ORIGIN
    ++ (if Py.truthy path && negb (String.prefix "/" path) then "/" ++ path else path).
Proof.
  unfold Urllib.urlunparse, Urllib.urlunsplit. cbn -[String.prefix].
  destruct (Py.truthy path && negb (String.prefix "/" path)); reflexivity.
Qed.

Lemma urlunparse_rooted (p : string) :
  p = EmptyString \/ String.prefix "/" p = true ->
  Urllib.urlunparse (Urllib.mkParse "https" "www.youtube.com" p "" "" "")
  = YOUTUBE_ORIGIN ++ p.
Proof.
  intros H. rewrite urlunparse_canonical.
  destruct H as [-> | H]; [reflexivity |]. rewrite H, andb_false_r. reflexivity.
Qed.

Lemma strip_canonical (p : string) :
  Py.all_chars plain_char p = true ->
  Py.strip (YOUTUBE_ORIGIN ++ p) = YOUTUBE_ORIGIN ++ p.
Proof.
  intros Hp. unfold Py.strip.
  change (Py.lstrip_by Py.isspace (YOUTUBE_ORIGIN ++ p)) with (YOUTUBE_ORIGIN ++ p).
  rewrite rstrip_by_app, (plain_rstrip p Hp).
  destruct p; reflexivity.
Qed.

Lemma resolve_canonical (L : Externals) (p : string) :
  p = EmptyString \/ String.prefix "/" p = true ->
  Py.all_chars plain_char p = true ->
  resolve_channel_url L (YOUTUBE_ORIGIN ++ p)
  = Ret (Urllib.mkParse "https" "www.youtube.com" p "" "" "").
Proof.
  intros Hshape Hp. unfold resolve_channel_url.
  rewrite (strip_canonical p Hp), (urlparse_canonical L p Hshape Hp).
  reflexivity.
Qed.

Lemma prefix_empty (s : string) : String.prefix EmptyString s = true.
Proof. destruct s; reflexivity. Qed.

Lemma prefix_append (a b : string) : String.prefix a (a ++ b) = true.
Proof.
  induction a as [| c a IH]; simpl; [apply prefix_empty |].
  destruct (ascii_dec c c); [exact IH | congruence].
Qed.

Lemma contains_of_prefix (sub s : string) :
  String.prefix sub s = true -> Py.contains sub s = true.
Proof. destruct s; simpl; intros ->; reflexivity. Qed.

Lemma contains_cons (sub : string) (c : ascii) (s : string) :
  Py.contains sub s = true -> Py.contains sub (String c s) = true.
Proof. intros H. simpl. rewrite H. apply orb_true_r. Qed.

(** The two ways [canonical_base] builds its result. *)
Lemma canonical_base_cases (path : string) (cid : option string) :
  (exists id, cid = Some id /\ Py.truthy id = true
              /\ Py.contains "/channel/" path = false
              /\ canonical_base path cid = YOUTUBE_ORIGIN ++ "/channel/" ++ Py.strip id)
  \/ ((cid = None \/ cid = Some EmptyString \/ Py.contains "/channel/" path = true)
      /\ exists p, canonical_base path cid = YOUTUBE_ORIGIN ++ p
                   /\ (p = EmptyString \/ String.prefix "/" p = true)
                   /\ (Py.contains "/channel/" path = true ->
                       Py.contains "/channel/" p = true)).
Proof.
  assert (Hbase : exists p,
             Urllib.urlunparse (Urllib.mkParse "https" "www.youtube.com" path "" "" "")
             = YOUTUBE_ORIGIN ++ p
             /\ (p = EmptyString \/ String.prefix "/" p = true)
             /\ (Py.contains "/channel/" path = true -> Py.contains "/channel/" p = true)).
  { rewrite urlunparse_canonical.
    destruct path as [| c path']; [exists EmptyString; auto |].
    cbn [Py.truthy andb].
    destruct (String.prefix "/" (String c path')) eqn:E; cbn [negb].
    - eexists; split; [reflexivity | auto].
    - eexists; split; [reflexivity | split; [right; reflexivity |]].
      intros H. apply contains_cons. exact H. }
  unfold canonical_base.
  destruct cid as [id |]; [| right; split; [auto | exact Hbase]].
  destruct (Py.truthy id) eqn:Eid.
  - destruct (Py.contains "/channel/" path) eqn:Ec; cbn [negb andb].
    + right. split; [auto | exact Hbase].
    + left. exists id. auto.
  - cbn [andb]. right. split; [| exact Hbase].
    right; left. now rewrite (truthy_false id Eid).
Qed.

(** C3, amended: normalising a canonical URL again gives it back whenever
    its path has no whitespace, none of [?], [#] and [;], no trailing slash
    and no trailing [/about]. *)
Theorem normalise_idempotent_on_plain_paths
    (L : Externals) (url : string) (cid : option string) (c : string) :
  normalise_channel_url L url cid = Ret (Some c) ->
  plain_path (canonical_path_of c) = true ->
  normalise_channel_url L c cid = Ret (Some c).
Proof.
  intros Hn Hplain.
  assert (Hc : exists path, c = canonical_base path cid).
  { unfold normalise_channel_url in Hn.
    destruct (negb (Py.truthy url)); [discriminate |].
    destruct (resolve_channel_url L url) as [parsed | e]; [| discriminate].
    cbn [obind] in Hn.
    destruct (negb (Py.contains "youtube" (Py.lower (Urllib.netloc parsed))));
      [discriminate |].
    injection Hn as <-. eexists; reflexivity. }
  destruct Hc as [path ->].
  assert (Hshape : exists p,
             canonical_base path cid = YOUTUBE_ORIGIN ++ p
             /\ (p = EmptyString \/ String.prefix "/" p = true)
             /\ canonical_base p cid = YOUTUBE_ORIGIN ++ p).
  { destruct (canonical_base_cases path cid)
      as [(id & -> & Hid & Hno & E) | (Hcid & p & E & Hp & Hin)].
    - exists ("/channel/" ++ Py.strip id). split; [exact E |].
      split; [right; apply (prefix_append "/" ("channel/" ++ Py.strip id)) |].
      unfold canonical_base. rewrite Hid.
      rewrite (contains_of_prefix _ _ (prefix_append "/channel/" (Py.strip id))).
      cbn [negb andb]. apply urlunparse_rooted.
      right; apply (prefix_append "/" ("channel/" ++ Py.strip id)).
    - exists p. split; [exact E |]. split; [exact Hp |].
      unfold canonical_base.
      destruct Hcid as [-> | [-> | Hc]];
        [apply urlunparse_rooted; exact Hp
        | apply urlunparse_rooted; exact Hp |].
      rewrite (Hin Hc). destruct cid as [id |];
        [rewrite andb_false_r |]; apply urlunparse_rooted; exact Hp. }
  destruct Hshape as (p & E & Hp & Hfix).
  rewrite E in Hplain |- *.
  change (canonical_path_of (YOUTUBE_ORIGIN ++ p)) with p in Hplain.
  unfold plain_path in Hplain.
  apply andb_prop in Hplain. destruct Hplain as [Hplain Habout].
  apply andb_prop in Hplain. destruct Hplain as [Hchars Hslash].
  apply String.eqb_eq in Hslash.
  unfold normalise_channel_url.
  change (Py.truthy (YOUTUBE_ORIGIN ++ p)) with true. cbn [negb].
  rewrite (resolve_canonical L p Hp Hchars). cbn [obind Urllib.netloc].
  change (negb (Py.contains "youtube" (Py.lower "www.youtube.com"))) with false.
  cbv beta iota.
  assert (Hpath : channel_path (Urllib.mkParse "https" "www.youtube.com" p "" "" "") = p).
  { unfold channel_path. cbn [Urllib.path]. rewrite Hslash.
    apply negb_true_iff in Habout. rewrite Habout. reflexivity. }
  rewrite Hpath, Hfix. reflexivity.
Qed.

(** C3 as stated fails: one pass removes one trailing [/about], so a URL
    that ends in two of them is normalised to a URL that normalises further. *)
Lemma normalise_not_idempotent_counterexample :
  (forall L, normalise_channel_url L "https://www.youtube.com/c/foo/about/about" None
             = Ret (Some "https://www.youtube.com/c/foo/about"))
  /\ (forall L, normalise_channel_url L "https://www.youtube.com/c/foo/about" None
                = Ret (Some "https://www.youtube.com/c/foo"))
  /\ "https://www.youtube.com/c/foo/about" <> "https://www.youtube.com/c/foo".
Proof.
  split; [intros L; vm_compute; reflexivity |].
  split; [intros L; vm_compute; reflexivity | discriminate].
Qed.

(** The amended C3 at [https://www.youtube.com/c/foo/about/]. *)
Lemma normalise_idempotent_witness :
  normalise_channel_url example_externals "https://www.youtube.com/c/foo/about/" None
  = Ret (Some "https://www.youtube.com/c/foo")
  /\ normalise_channel_url example_externals "https://www.youtube.com/c/foo" None
     = Ret (Some "https://www.youtube.com/c/foo").
Proof.
  split; [reflexivity |].
  apply (normalise_idempotent_on_plain_paths example_externals
           "https://www.youtube.com/c/foo/about/" None);
    reflexivity.
Defined.

(** C4, amended: for a non-empty URL, [normalise_channel_url] returns
    nothing exactly when the host the URL resolves to does not contain
    [youtube], and a canonical URL when it does; the empty URL returns
    nothing. *)
Theorem normalise_none_iff_not_youtube
    (L : Externals) (url : string) (cid : option string) (host : string) :
  Py.truthy url = true ->
  resolved_host L url = Ret host ->
  (normalise_channel_url L url cid = Ret None <-> is_youtube_host host = false)
  /\ (is_youtube_host host = true ->
      exists c, normalise_channel_url L url cid = Ret (Some c))
  /\ normalise_channel_url L EmptyString cid = Ret None.
Proof.
  intros Hurl Hhost.
  unfold normalise_channel_url, resolved_host, is_youtube_host in *.
  rewrite Hurl. cbn [negb Py.truthy].
  destruct (resolve_channel_url L url) as [parsed | e]; [| discriminate].
  cbn [obind] in *. injection Hhost as <-.
  destruct (Py.contains "youtube" (Py.lower (Urllib.netloc parsed))); cbn [negb].
  - split; [split; discriminate |]. split; [| reflexivity].
    intros _. eexists; reflexivity.
  - split; [split; reflexivity |]. split; [discriminate | reflexivity].
Qed.

(** The amended C4 at [https://example.com/c/foo]. *)
Lemma normalise_none_iff_not_youtube_witness :
  (normalise_channel_url example_externals "https://example.com/c/foo" None = Ret None
   <-> is_youtube_host "example.com" = false)
  /\ (is_youtube_host "example.com" = true ->
      exists c, normalise_channel_url example_externals "https://example.com/c/foo" None
                = Ret (Some c))
  /\ normalise_channel_url example_externals EmptyString None = Ret None.
Proof.
  apply (normalise_none_iff_not_youtube example_externals "https://example.com/c/foo"
           None "example.com");
    reflexivity.
Defined.

(** C4 as stated fails at the empty URL: like a blank URL it resolves to the
    YouTube origin, whose host is a YouTube host, and yet nothing is
    returned for it, while the blank URL gives the origin. *)
Lemma normalise_empty_url_counterexample :
  (forall L, resolved_host L EmptyString = Ret "www.youtube.com")
  /\ is_youtube_host "www.youtube.com" = true
  /\ (forall L cid, normalise_channel_url L EmptyString cid = Ret None)
  /\ (forall L, resolved_host L " " = Ret "www.youtube.com")
  /\ (forall L, normalise_channel_url L " " None = Ret (Some "https://www.youtube.com")).
Proof.
  split; [intros L; vm_compute; reflexivity |].
  split; [reflexivity |].
  split; [intros L cid; reflexivity |].
  split; intros L; vm_compute; reflexivity.
Qed.

(** C9, amended: for a non-empty URL that resolves to a YouTube host, a
    non-empty channel id forces [https://www.youtube.com/channel/] followed
    by the id with surrounding whitespace stripped, whenever the computed
    path has no [/channel/]; when the path has one, or the channel id is
    missing or empty, the result is the one computed without channel id. *)
Theorem channel_id_forces_channel_url
    (L : Externals) (url : string) (cid : option string) (host path : string) :
  Py.truthy url = true ->
  resolved_host L url = Ret host ->
  is_youtube_host host = true ->
  computed_path L url = Ret path ->
  (forall id, cid = Some id -> Py.truthy id = true ->
      Py.contains "/channel/" path = false ->
      normalise_channel_url L url cid
      = Ret (Some (YOUTUBE_ORIGIN ++ "/channel/" ++ Py.strip id)))
  /\ (Py.contains "/channel/" path = true ->
      normalise_channel_url L url cid = normalise_channel_url L url None)
  /\ (Py.otruthy cid = false ->
      normalise_channel_url L url cid = normalise_channel_url L url None).
Proof.
  intros Hurl Hhost Hyt Hpath.
  unfold normalise_channel_url, resolved_host, computed_path, is_youtube_host in *.
  rewrite Hurl. cbn [negb].
  destruct (resolve_channel_url L url) as [parsed | e]; [| discriminate].
  cbn [obind] in *. injection Hhost as <-. injection Hpath as <-.
  rewrite Hyt. cbn [negb]. unfold canonical_base.
  split; [| split].
  - intros id -> Hid Hno. rewrite Hid, Hno. reflexivity.
  - intros Hin. rewrite Hin. destruct cid as [id |]; [| reflexivity].
    now rewrite andb_false_r.
  - intros Hcid. destruct cid as [id |]; [| reflexivity].
    cbn [Py.otruthy] in Hcid. now rewrite Hcid.
Qed.

(** The amended C9 at [https://www.youtube.com/c/foo/about] with the channel
    id [UC123]. *)
Lemma channel_id_forces_channel_url_witness :
  (forall id, Some "UC123" = Some id -> Py.truthy id = true ->
      Py.contains "/channel/" "/c/foo" = false ->
      normalise_channel_url example_externals "https://www.youtube.com/c/foo/about"
        (Some "UC123")
      = Ret (Some (YOUTUBE_ORIGIN ++ "/channel/" ++ Py.strip id)))
  /\ (Py.contains "/channel/" "/c/foo" = true ->
      normalise_channel_url example_externals "https://www.youtube.com/c/foo/about"
        (Some "UC123")
      = normalise_channel_url example_externals "https://www.youtube.com/c/foo/about" None)
  /\ (Py.otruthy (Some "UC123") = false ->
      normalise_channel_url example_externals "https://www.youtube.com/c/foo/about"
        (Some "UC123")
      = normalise_channel_url example_externals "https://www.youtube.com/c/foo/about" None).
Proof.
  apply (channel_id_forces_channel_url example_externals
           "https://www.youtube.com/c/foo/about" (Some "UC123") "www.youtube.com" "/c/foo");
    reflexivity.
Defined.

(** C9 as stated fails: the id is stripped before it is appended, so the
    result is not the origin followed by [/channel/] and the id as given. *)
Lemma channel_id_stripped_counterexample :
  (forall L, resolved_host L "https://www.youtube.com/c/foo" = Ret "www.youtube.com")
  /\ is_youtube_host "www.youtube.com" = true
  /\ (forall L, computed_path L "https://www.youtube.com/c/foo" = Ret "/c/foo")
  /\ Py.contains "/channel/" "/c/foo" = false
  /\ (forall L, normalise_channel_url L "https://www.youtube.com/c/foo" (Some " UC1")
                = Ret (Some "https://www.youtube.com/channel/UC1"))
  /\ "https://www.youtube.com/channel/UC1" <> YOUTUBE_ORIGIN ++ "/channel/" ++ " UC1".
Proof.
  repeat split; try (intros L; vm_compute; reflexivity); discriminate.
Qed.

(** ** The redirect-link parser *)

Lemma key_leb_le (a b : Item) : key_leb (sort_key a) (sort_key b) = true <-> key_le a b.
Proof.
  unfold key_leb, key_le, sort_key. cbn [fst snd].
  rewrite orb_true_iff, andb_true_iff, Nat.ltb_lt, Nat.eqb_eq, Nat.leb_le.
  reflexivity.
Qed.

Lemma key_le_refl (a : Item) : key_le a a.
Proof. right. split; [reflexivity | apply Nat.le_refl]. Qed.

Lemma key_le_trans (a b c : Item) : key_le a b -> key_le b c -> key_le a c.
Proof. unfold key_le. lia. Qed.

Lemma key_le_total (a b : Item) : key_le a b \/ key_le b a.
Proof. unfold key_le. lia. Qed.

Lemma insert_by_key_perm (x : Item) (l : list Item) :
  Permutation (insert_by_key x l) (x :: l).
Proof.
  induction l as [| y l IH]; simpl; [apply Permutation_refl |].
  destruct (key_leb (sort_key x) (sort_key y)); [apply Permutation_refl |].
  apply perm_trans with (y :: x :: l); [now apply perm_skip | apply perm_swap].
Qed.

Lemma sort_by_key_perm (l : list Item) : Permutation (sort_by_key l) l.
Proof.
  induction l as [| x l IH]; simpl; [apply perm_nil |].
  apply perm_trans with (x :: sort_by_key l);
    [apply insert_by_key_perm | now apply perm_skip].
Qed.

Lemma insert_by_key_sorted (x : Item) (l : list Item) :
  StronglySorted key_le l -> StronglySorted key_le (insert_by_key x l).
Proof.
  induction l as [| y l IH]; simpl; intros Hs.
  - constructor; [constructor | constructor].
  - inversion Hs as [| ? ? Hs' Hall]; subst.
    destruct (key_leb (sort_key x) (sort_key y)) eqn:E.
    + apply key_leb_le in E. constructor; [exact Hs |].
      constructor; [exact E |].
      eapply Forall_impl; [| exact Hall]. intros z Hz.
      eapply key_le_trans; eassumption.
    + assert (Hyx : key_le y x).
      { destruct (key_le_total x y) as [H | H]; [| exact H].
        apply key_leb_le in H. congruence. }
      constructor; [apply IH; exact Hs' |].
      apply (Permutation_Forall (Permutation_sym (insert_by_key_perm x l))).
      constructor; assumption.
Qed.

Lemma sort_by_key_sorted (l : list Item) : StronglySorted key_le (sort_by_key l).
Proof.
  induction l as [| x l IH]; simpl; [constructor | now apply insert_by_key_sorted].
Qed.

Lemma sort_by_key_in (l : list Item) (it : Item) : In it (sort_by_key l) <-> In it l.
Proof.
  split; apply Permutation_in; [| apply Permutation_sym]; apply sort_by_key_perm.
Qed.

(** [collect_links] appends the destinations of [kept_items]. *)
Lemma collect_links_kept (items : list Item) (seen links : list string) :
  collect_links items seen links = (links ++ map item_dest (kept_items items seen))%list.
Proof.
  revert seen links. induction items as [| it items IH]; intros seen links; simpl.
  - now rewrite app_nil_r.
  - destruct (negb (Py.truthy (item_dest it)) || Py.str_in (item_dest it) seen).
    + apply IH.
    + rewrite IH, <- app_assoc. reflexivity.
Qed.

Lemma str_in_In (s : string) (l : list string) : Py.str_in s l = true <-> In s l.
Proof.
  unfold Py.str_in. rewrite existsb_exists. split.
  - intros (x & Hx & E). apply String.eqb_eq in E. now subst.
  - intros H. exists s. split; [exact H | apply String.eqb_refl].
Qed.

Lemma kept_items_in (items : list Item) (seen : list string) (c : Item) :
  In c (kept_items items seen) ->
  In c items /\ Py.truthy (item_dest c) = true /\ ~ In (item_dest c) seen.
Proof.
  revert seen. induction items as [| it items IH]; intros seen; simpl; [tauto |].
  destruct (negb (Py.truthy (item_dest it)) || Py.str_in (item_dest it) seen) eqn:E.
  - intros H. destruct (IH _ H) as (H1 & H2 & H3). auto.
  - apply orb_false_elim in E. destruct E as [Et Es].
    apply negb_false_iff in Et.
    intros [<- | H].
    + split; [auto |]. split; [exact Et |].
      intros Hin. apply str_in_In in Hin. congruence.
    + destruct (IH _ H) as (H1 & H2 & H3). split; [auto |]. split; [exact H2 |].
      intros Hin. apply H3. now right.
Qed.

Lemma kept_items_nodup (items : list Item) (seen : list string) :
  NoDup (map item_dest (kept_items items seen)).
Proof.
  revert seen. induction items as [| it items IH]; intros seen; simpl; [constructor |].
  destruct (negb (Py.truthy (item_dest it)) || Py.str_in (item_dest it) seen) eqn:E.
  - apply IH.
  - simpl. constructor; [| apply IH].
    intros Hin. apply in_map_iff in Hin. destruct Hin as (c & Ec & Hc).
    apply kept_items_in in Hc. destruct Hc as (_ & _ & Hc). apply Hc. left. now rewrite Ec.
Qed.

Lemma kept_items_sorted (R : Item -> Item -> Prop) (items : list Item) (seen : list string) :
  StronglySorted R items -> StronglySorted R (kept_items items seen).
Proof.
  intros Hs. revert seen. induction Hs as [| it items Hs IH Hall]; intros seen; simpl.
  - constructor.
  - destruct (negb (Py.truthy (item_dest it)) || Py.str_in (item_dest it) seen).
    + apply IH.
    + constructor; [apply IH |].
      apply Forall_forall. intros c Hc. apply kept_items_in in Hc.
      rewrite Forall_forall in Hall. apply Hall. tauto.
Qed.

(** Every entry with a fresh, non-empty destination is represented among
    the kept ones by itself or by an entry before it. *)
Lemma kept_items_represent (R : Item -> Item -> Prop) (items : list Item) :
  StronglySorted R items ->
  forall (seen : list string) (it : Item),
    In it items -> Py.truthy (item_dest it) = true -> ~ In (item_dest it) seen ->
    exists c, In c (kept_items items seen) /\ item_dest c = item_dest it
              /\ (c = it \/ R c it).
Proof.
  intros Hs. induction Hs as [| a items Hs IH Hall]; intros seen it Hin Ht Hseen;
    [destruct Hin |].
  simpl.
  destruct (negb (Py.truthy (item_dest a)) || Py.str_in (item_dest a) seen) eqn:E.
  - destruct Hin as [-> | Hin].
    + exfalso. apply orb_true_iff in E. destruct E as [E | E].
      * rewrite Ht in E. discriminate.
      * apply str_in_In in E. contradiction.
    + apply IH; assumption.
  - apply orb_false_elim in E. destruct E as [Et Es].
    destruct Hin as [-> | Hin].
    + exists it. split; [now left | auto].
    + destruct (String.eqb_spec (item_dest a) (item_dest it)) as [Eq | Ne].
      * exists a. split; [now left |]. split; [exact Eq |]. right.
        rewrite Forall_forall in Hall. now apply Hall.
      * destruct (IH (item_dest a :: seen) it Hin Ht) as (c & Hc & Ec & Hr).
        { intros [H | H]; [contradiction | contradiction]. }
        exists c. split; [now right | auto].
Qed.

Lemma first_index_app_notin (d : string) (pre l : list string) :
  ~ In d pre -> first_index d (pre ++ l)%list = length pre + first_index d l.
Proof.
  induction pre as [| x pre IH]; simpl; intros H; [reflexivity |].
  destruct (String.eqb_spec x d) as [-> | _]; [exfalso; apply H; now left |].
  rewrite IH; [reflexivity | intros Hin; apply H; now right].
Qed.

(** The kept destinations come in the order of their first occurrences. *)
Lemma kept_items_first_index (items : list Item) :
  forall (pre seen : list string),
    (forall d, In d seen <-> Py.truthy d = true /\ In d pre) ->
    let dests := (pre ++ map item_dest items)%list in
    StronglySorted (fun a b => first_index a dests < first_index b dests)
      (map item_dest (kept_items items seen))
    /\ Forall (fun d => length pre <= first_index d dests)
         (map item_dest (kept_items items seen)).
Proof.
  induction items as [| it items IH]; intros pre seen Hinv; simpl.
  - split; constructor.
  - assert (Happ : (pre ++ item_dest it :: map item_dest items
                    = (pre ++ [item_dest it]) ++ map item_dest items)%list)
      by (rewrite <- app_assoc; reflexivity).
    destruct (negb (Py.truthy (item_dest it)) || Py.str_in (item_dest it) seen) eqn:E.
    + destruct (IH (pre ++ [item_dest it])%list seen) as [Hs Hf].
      { intros d. rewrite Hinv, in_app_iff. split; [tauto |].
        intros [Ht [Hin | [<- | []]]]; [tauto |].
        apply orb_true_iff in E. destruct E as [E | E].
        - rewrite Ht in E. discriminate.
        - apply str_in_In, Hinv in E. exact E. }
      rewrite Happ. split; [exact Hs |].
      eapply Forall_impl; [| exact Hf]. intros d Hd.
      rewrite length_app in Hd. simpl in Hd. lia.
    + apply orb_false_elim in E. destruct E as [Et Es].
      apply negb_false_iff in Et.
      destruct (IH (pre ++ [item_dest it])%list (item_dest it :: seen)) as [Hs Hf].
      { intros d. simpl. rewrite Hinv, in_app_iff. simpl. split.
        - intros [<- | H]; [tauto | tauto].
        - intros [Ht [Hin | [H | []]]]; [tauto | now left]. }
      assert (Hhead : first_index (item_dest it)
                        (pre ++ item_dest it :: map item_dest items)%list = length pre).
      { rewrite first_index_app_notin.
        - simpl. rewrite String.eqb_refl. lia.
        - intros Hin. assert (Hseen : In (item_dest it) seen) by (apply Hinv; auto).
          apply str_in_In in Hseen. congruence. }
      rewrite Happ in Hhead |- *. simpl. split.
      * constructor; [exact Hs |].
        eapply Forall_impl; [| exact Hf]. intros d Hd.
        rewrite length_app in Hd. simpl in Hd. rewrite Hhead. lia.
      * constructor; [rewrite Hhead; lia |].
        eapply Forall_impl; [| exact Hf]. intros d Hd.
        rewrite length_app in Hd. simpl in Hd. lia.
Qed.

(** *** The candidates and their parsing *)

Lemma find_prefix (sub s : string) (i : nat) :
  Py.find sub s = Some i -> String.prefix sub (Py.drop i s) = true.
Proof.
  revert i. induction s as [| c s IH]; intros i.
  - cbn [Py.find]. destruct (String.prefix sub EmptyString) eqn:E; [| discriminate].
    intros [= <-]. exact E.
  - cbn [Py.find]. destruct (String.prefix sub (String c s)) eqn:E.
    + intros [= <-]. exact E.
    + destruct (Py.find sub s) as [j |]; [| discriminate].
      intros [= <-]. cbn [Py.drop]. now apply IH.
Qed.

Lemma prefix_split (a s : string) :
  String.prefix a s = true -> exists r, s = a ++ r.
Proof.
  revert s. induction a as [| c a IH]; intros s H.
  - exists s. reflexivity.
  - destruct s as [| c' s]; [discriminate |]. simpl in H.
    destruct (ascii_dec c c') as [<- |]; [| discriminate].
    destruct (IH s H) as [r ->]. exists r. reflexivity.
Qed.

Lemma span_app (p : ascii -> bool) (a r : string) :
  Py.all_chars p a = true ->
  Py.span p (a ++ r) = (a ++ fst (Py.span p r), snd (Py.span p r)).
Proof.
  induction a as [| c a IH]; simpl; intros H.
  - destruct (Py.span p r); reflexivity.
  - apply andb_prop in H. destruct H as [Hc Ha]. rewrite Hc, (IH Ha). reflexivity.
Qed.

Lemma span_all (p : ascii -> bool) (s : string) :
  Py.all_chars p (fst (Py.span p s)) = true.
Proof.
  induction s as [| c s IH]; simpl; [reflexivity |].
  destruct (p c) eqn:E; [| reflexivity].
  destruct (Py.span p s) as [a b]. simpl in *. now rewrite E.
Qed.

Lemma span_length (p : ascii -> bool) (s : string) :
  String.length s
  = String.length (fst (Py.span p s)) + String.length (snd (Py.span p s)).
Proof.
  induction s as [| c s IH]; simpl; [reflexivity |].
  destruct (p c); [| reflexivity].
  destruct (Py.span p s) as [a b]. simpl in *. now rewrite IH.
Qed.

Lemma drop_length (n : nat) (s : string) :
  String.length (Py.drop n s) <= String.length s.
Proof.
  revert s. induction n as [| n IH]; intros s; destruct s; simpl; auto.
Qed.

Lemma length_append (a b : string) :
  String.length (a ++ b) = String.length a + String.length b.
Proof. induction a as [| c a IH]; simpl; [reflexivity | now rewrite IH]. Qed.

Lemma find_none_contains (sub s : string) :
  Py.find sub s = None <-> Py.contains sub s = false.
Proof.
  induction s as [| c s IH]; cbn [Py.find Py.contains].
  - destruct (String.prefix sub EmptyString); split; congruence.
  - destruct (String.prefix sub (String c s)); cbn [orb]; [split; discriminate |].
    rewrite <- IH. destruct (Py.find sub s); cbn [option_map]; split; congruence.
Qed.

Lemma all_chars_app (p : ascii -> bool) (a b : string) :
  Py.all_chars p a = true -> Py.all_chars p b = true ->
  Py.all_chars p (a ++ b) = true.
Proof.
  induction a as [| c a IH]; simpl; intros Ha Hb; [exact Hb |].
  apply andb_prop in Ha. destruct Ha as [-> Ha]. now apply IH.
Qed.

(** One round of [_iter_redirect_urls]. *)
Lemma redirect_round (text : string) (idx : nat) :
  Py.find REDIRECT_PREFIX text = Some idx ->
  is_candidate (fst (Py.span candidate_char (Py.drop idx text)))
  /\ String.length (snd (Py.span candidate_char (Py.drop idx text)))
     < String.length text.
Proof.
  intros Hf. apply find_prefix, prefix_split in Hf. destruct Hf as [r Hr].
  pose proof (drop_length idx text) as Hlen. rewrite Hr in Hlen |- *.
  rewrite (span_app candidate_char REDIRECT_PREFIX r) by reflexivity.
  cbn [fst snd]. split.
  - exists (fst (Py.span candidate_char r)). split; [reflexivity | apply span_all].
  - rewrite length_append, (span_length candidate_char r) in Hlen.
    change (String.length REDIRECT_PREFIX) with 32 in Hlen. lia.
Qed.

Lemma iter_redirect_candidates (fuel : nat) (text : string) :
  Forall is_candidate (iter_redirect_from fuel text).
Proof.
  revert text. induction fuel as [| fuel IH]; intros text; simpl; [constructor |].
  destruct (Py.find REDIRECT_PREFIX text) as [idx |] eqn:Hf; [| constructor].
  destruct (redirect_round text idx Hf) as [Hc _].
  destruct (Py.span candidate_char (Py.drop idx text)) as [candidate rest].
  constructor; [exact Hc | apply IH].
Qed.

(** Once the fuel exceeds the length of the text, the candidates no longer
    depend on it. *)
Lemma iter_redirect_fuel (fuel1 fuel2 : nat) (text : string) :
  String.length text < fuel1 -> String.length text < fuel2 ->
  iter_redirect_from fuel1 text = iter_redirect_from fuel2 text.
Proof.
  revert fuel2 text. induction fuel1 as [| fuel1 IH]; intros fuel2 text H1 H2; [lia |].
  destruct fuel2 as [| fuel2]; [lia |]. simpl.
  destruct (Py.find REDIRECT_PREFIX text) as [idx |] eqn:Hf; [| reflexivity].
  destruct (redirect_round text idx Hf) as [_ Hlt].
  destruct (Py.span candidate_char (Py.drop idx text)) as [candidate rest].
  cbn [snd] in Hlt. f_equal. apply IH; lia.
Qed.

(** The fuel of [_iter_redirect_urls] suffices: more fuel yields the same
    candidates. *)
Lemma iter_redirect_urls_fuel (fuel : nat) (page_text : string) :
  String.length page_text < fuel ->
  iter_redirect_from fuel page_text = _iter_redirect_urls page_text.
Proof.
  intros H. unfold _iter_redirect_urls. apply iter_redirect_fuel; [exact H | lia].
Qed.

Lemma candidate_char_safe (c : ascii) :
  candidate_char c = true -> Urllib.unsafe_url_byte c = false.
Proof.
  destruct c as [[|] [|] [|] [|] [|] [|] [|] [|]]; vm_compute; intros H;
    try discriminate H; reflexivity.
Qed.

Lemma candidate_remove_unsafe (x : string) :
  Py.all_chars candidate_char x = true ->
  Py.remove_chars Urllib.unsafe_url_byte x = x.
Proof.
  induction x as [| c x IH]; simpl; [reflexivity |].
  intros H. apply andb_prop in H. destruct H as [Hc Hx].
  rewrite (candidate_char_safe c Hc), (IH Hx). reflexivity.
Qed.

(** [urlparse] does not raise on a candidate: its netloc is
    [www.youtube.com], which has no bracket. *)
Lemma urlparse_candidate (L : Externals) (raw_url : string) :
  is_candidate raw_url ->
  exists parsed, Urllib.urlparse L raw_url EmptyString = Ret parsed.
Proof.
  intros (x & -> & Hx).
  unfold Urllib.urlparse, Urllib.urlsplit.
  change (Py.lstrip_by Urllib.c0_control_or_space (REDIRECT_PREFIX ++ x))
    with (REDIRECT_PREFIX ++ x).
  change (Py.remove_chars Urllib.unsafe_url_byte (REDIRECT_PREFIX ++ x))
    with (REDIRECT_PREFIX ++ Py.remove_chars Urllib.unsafe_url_byte x).
  rewrite (candidate_remove_unsafe x Hx).
  change (Urllib.split_scheme (REDIRECT_PREFIX ++ x)
            (Py.remove_chars Urllib.unsafe_url_byte
               (Py.rstrip_by Urllib.c0_control_or_space
                  (Py.lstrip_by Urllib.c0_control_or_space EmptyString))))
    with ("https", "//www.youtube.com/redirect" ++ x).
  cbv beta iota.
  change (String.prefix "//" ("//www.youtube.com/redirect" ++ x)) with true.
  change (Urllib.splitnetloc ("//www.youtube.com/redirect" ++ x))
    with ("www.youtube.com", "/redirect" ++ x).
  cbn -[Urllib.split_off Urllib.splitparams].
  match goal with
  | |- context [Urllib.split_off "#" ?s] => destruct (Urllib.split_off "#" s) as [u f]
  end.
  destruct (Urllib.split_off "?" u) as [u' q].
  cbn -[Urllib.splitparams].
  destruct (Py.mem_char ";" u'); [destruct (Urllib.splitparams u') |];
    eexists; reflexivity.
Qed.

Lemma dict_add_nonempty (d : list (string * list string)) (name value : string) :
  Forall (fun kv => snd kv <> []) d ->
  Forall (fun kv => snd kv <> []) (Urllib.dict_add d name value).
Proof.
  induction d as [| [k vs] d IH]; simpl; intros H.
  - constructor; [discriminate | constructor].
  - inversion H as [| ? ? Hk Hd]; subst.
    destruct (String.eqb k name); constructor; auto.
    simpl. destruct vs; discriminate.
Qed.

Lemma parse_qs_nonempty (L : Externals) (qs : string) :
  Forall (fun kv => snd kv <> []) (Urllib.parse_qs L qs).
Proof.
  unfold Urllib.parse_qs.
  assert (H : forall pairs d,
             Forall (fun kv : string * list string => snd kv <> []) d ->
             Forall (fun kv : string * list string => snd kv <> [])
               (fold_left (fun d nv => Urllib.dict_add d (fst nv) (snd nv)) pairs d)).
  { induction pairs as [| nv pairs IH]; intros d Hd; simpl; [exact Hd |].
    apply IH, dict_add_nonempty, Hd. }
  apply H. constructor.
Qed.

Lemma dict_get_nonempty (d : list (string * list string)) (key : string) :
  Forall (fun kv => snd kv <> []) d -> Urllib.dict_get d key <> Some [].
Proof.
  induction d as [| [k vs] d IH]; simpl; intros H; [discriminate |].
  inversion H as [| ? ? Hk Hd]; subst.
  destruct (String.eqb k key); [| auto].
  intros [= ->]. now apply Hk.
Qed.

(** The first loop of [parse_channel_links] does not raise: each candidate
    gives at most one entry, numbered with its index. *)
Lemma parse_candidate_total (L : Externals) (idx : nat) (raw_url : string) :
  is_candidate raw_url ->
  exists items, parse_candidate L idx raw_url = Ret items.
Proof.
  intros Hc. unfold parse_candidate.
  destruct (urlparse_candidate L raw_url Hc) as [parsed ->]. cbn [obind].
  pose proof (parse_qs_nonempty L (Urllib.query parsed)) as Hne.
  destruct (Urllib.dict_get (Urllib.parse_qs L (Urllib.query parsed)) "q")
    as [[| target targets] |]; try (eexists; reflexivity).
  destruct (Urllib.dict_get (Urllib.parse_qs L (Urllib.query parsed)) "event")
    as [[| event events] |] eqn:E; try (eexists; reflexivity).
  exfalso. exact (dict_get_nonempty _ _ Hne E).
Qed.

Lemma build_structured_total (L : Externals) (candidates : list string) :
  Forall is_candidate candidates ->
  forall idx, exists structured, build_structured L idx candidates = Ret structured.
Proof.
  induction 1 as [| raw_url rest Hc Hrest IH]; intros idx; simpl.
  - eexists; reflexivity.
  - destruct (parse_candidate_total L idx raw_url Hc) as [items ->].
    destruct (IH (S idx)) as [more ->]. eexists; reflexivity.
Qed.

Lemma structured_of_total (L : Externals) (page_text : string) :
  exists structured, structured_of L page_text = Ret structured.
Proof.
  unfold structured_of, _iter_redirect_urls.
  apply build_structured_total, iter_redirect_candidates.
Qed.

Lemma parse_channel_links_kept (L : Externals) (page_text : string)
    (structured : list Item) :
  structured_of L page_text = Ret structured ->
  parse_channel_links L page_text
  = Ret (map item_dest (kept_items (sort_by_key structured) [])).
Proof.
  intros H. unfold parse_channel_links. rewrite H. cbn [obind].
  now rewrite collect_links_kept.
Qed.

(** [parse_channel_links] returns a list for every page text. *)
Lemma parse_channel_links_total (L : Externals) (page_text : string) :
  exists links, parse_channel_links L page_text = Ret links.
Proof.
  destruct (structured_of_total L page_text) as [structured H].
  rewrite (parse_channel_links_kept L page_text structured H). eexists; reflexivity.
Qed.

(** Each candidate gives at most one entry, numbered with its index. *)
Lemma parse_candidate_idx (L : Externals) (idx : nat) (raw_url : string)
    (items : list Item) :
  parse_candidate L idx raw_url = Ret items ->
  items = [] \/ exists event dest, items = [(event, dest, idx)].
Proof.
  unfold parse_candidate.
  destruct (Urllib.urlparse L raw_url EmptyString) as [parsed | e]; cbn [obind];
    [| discriminate].
  destruct (Urllib.dict_get (Urllib.parse_qs L (Urllib.query parsed)) "q")
    as [[| target targets] |]; try (intros [= <-]; now left).
  destruct (Urllib.dict_get (Urllib.parse_qs L (Urllib.query parsed)) "event")
    as [[| event events] |]; try discriminate;
    intros [= <-]; right; eexists; eexists; reflexivity.
Qed.

(** The discovery indices of [structured] increase from left to right. *)
Lemma build_structured_idx (L : Externals) (candidates : list string) :
  forall idx structured,
    build_structured L idx candidates = Ret structured ->
    StronglySorted lt (map item_idx structured)
    /\ Forall (fun i => idx <= i) (map item_idx structured).
Proof.
  induction candidates as [| raw_url rest IH]; intros idx structured; simpl.
  - intros [= <-]. split; constructor.
  - destruct (parse_candidate L idx raw_url) as [items | e] eqn:Ei; cbn [obind];
      [| discriminate].
    destruct (build_structured L (S idx) rest) as [more | e] eqn:Em; cbn [obind];
      [| discriminate].
    intros [= <-]. destruct (IH (S idx) more Em) as [Hs Hf].
    assert (Hf' : Forall (fun i => idx <= i) (map item_idx more)).
    { eapply Forall_impl; [| exact Hf]. intros i Hi. cbv beta in *. lia. }
    destruct (parse_candidate_idx L idx raw_url items Ei) as [-> | (event & dest & ->)];
      cbn [app map item_idx snd].
    + auto.
    + split; constructor; auto.
Qed.

(** The rank of a tag: its position in [events_priority], and the length of
    the list for any other tag. *)
Lemma event_rank_spec :
  event_rank "channel_header" = 0
  /\ event_rank "channel_about_metadata" = 1
  /\ event_rank "channel_description" = 2
  /\ forall event, ~ In event events_priority -> event_rank event = 3.
Proof.
  repeat split. intros event Hnot. unfold event_rank, events_priority in *.
  cbn [index_or_length In] in *.
  destruct (String.eqb_spec "channel_header" event); [tauto |].
  destruct (String.eqb_spec "channel_about_metadata" event); [tauto |].
  destruct (String.eqb_spec "channel_description" event); [tauto |].
  reflexivity.
Qed.

Lemma append_assoc (a b c : string) : (a ++ b) ++ c = a ++ (b ++ c).
Proof. induction a as [| x a IH]; simpl; [reflexivity | now rewrite IH]. Qed.

Lemma append_empty (a : string) : a ++ EmptyString = a.
Proof. induction a as [| x a IH]; simpl; [reflexivity | now rewrite IH]. Qed.

Lemma prefix_past (a t x : string) (h : ascii) :
  Py.mem_char h a = false ->
  String.prefix a (t ++ String h x) = true -> String.prefix a t = true.
Proof.
  revert t. induction a as [| c a IH]; intros t Hm H; [apply prefix_empty |].
  cbn [Py.mem_char] in Hm. apply orb_false_iff in Hm. destruct Hm as [Hc Hm].
  destruct t as [| d t]; simpl in H |- *.
  - destruct (ascii_dec c h) as [-> |]; [| discriminate].
    rewrite Ascii.eqb_refl in Hc. discriminate.
  - destruct (ascii_dec c d); [| discriminate]. exact (IH t Hm H).
Qed.

Lemma find_at_prefix (sub s : string) :
  String.prefix sub s = true -> Py.find sub s = Some 0.
Proof. intros H. destruct s; cbn [Py.find]; rewrite H; reflexivity. Qed.

(** The prefix does not overlap itself: its first character does not occur
    in it again. *)
Lemma find_after (before rest : string) :
  Py.contains REDIRECT_PREFIX before = false ->
  Py.find REDIRECT_PREFIX (before ++ REDIRECT_PREFIX ++ rest)
  = Some (String.length before).
Proof.
  induction before as [| c t IH]; intros H.
  - change (EmptyString ++ REDIRECT_PREFIX ++ rest) with (REDIRECT_PREFIX ++ rest).
    apply find_at_prefix, prefix_append.
  - cbn [Py.contains] in H. apply orb_false_iff in H. destruct H as [Hp Hc].
    cbn [String.length].
    assert (Hn : String.prefix REDIRECT_PREFIX
                   (String c (t ++ REDIRECT_PREFIX ++ rest)) = false).
    { destruct (String.prefix REDIRECT_PREFIX
                  (String c (t ++ REDIRECT_PREFIX ++ rest))) eqn:E; [| reflexivity].
      rewrite <- Hp. unfold REDIRECT_PREFIX in E |- *.
      cbn [String.prefix] in E |- *.
      destruct (ascii_dec "h" c); [| discriminate E].
      symmetry.
      apply (prefix_past "ttps://www.youtube.com/redirect" t
               ("ttps://www.youtube.com/redirect" ++ rest) "h");
        [reflexivity | exact E]. }
    change (String c t ++ REDIRECT_PREFIX ++ rest)
      with (String c (t ++ REDIRECT_PREFIX ++ rest)).
    cbn [Py.find]. rewrite Hn, (IH Hc). reflexivity.
Qed.

Lemma drop_app_length (a b : string) : Py.drop (String.length a) (a ++ b) = b.
Proof. induction a as [| c a IH]; simpl; [destruct b; reflexivity | exact IH]. Qed.

Lemma span_stop (text : string) :
  ends_candidate text = true ->
  Py.span candidate_char text = (EmptyString, text).
Proof.
  destruct text as [| c r]; cbn [ends_candidate Py.span]; [reflexivity |].
  intros H. apply negb_true_iff in H. now rewrite H.
Qed.

(** One round of the scan, read on the page: the text before the first
    link, the link, and the text after it. *)
Lemma scan_step (before link rest : string) :
  Py.contains REDIRECT_PREFIX before = false ->
  is_candidate link -> ends_candidate rest = true ->
  _iter_redirect_urls (before ++ link ++ rest) = link :: _iter_redirect_urls rest.
Proof.
  intros Hb (x & -> & Hx) Hr.
  unfold _iter_redirect_urls at 1. cbn [iter_redirect_from].
  rewrite (append_assoc REDIRECT_PREFIX x rest).
  rewrite (find_after before (x ++ rest) Hb), drop_app_length.
  rewrite <- (append_assoc REDIRECT_PREFIX x rest).
  rewrite (span_app candidate_char (REDIRECT_PREFIX ++ x) rest)
    by (apply all_chars_app; [reflexivity | exact Hx]).
  rewrite (span_stop rest Hr). cbn [fst snd]. rewrite append_empty.
  f_equal. apply iter_redirect_urls_fuel.
  rewrite !length_append. change (String.length REDIRECT_PREFIX) with 32. lia.
Qed.

Lemma scan_none (text : string) :
  Py.contains REDIRECT_PREFIX text = false -> _iter_redirect_urls text = [].
Proof.
  intros H. apply find_none_contains in H.
  unfold _iter_redirect_urls. cbn [iter_redirect_from]. now rewrite H.
Qed.

Lemma separator_spec (text rest : string) :
  separator text = true ->
  Py.contains REDIRECT_PREFIX text = false /\ ends_candidate (text ++ rest) = true.
Proof.
  unfold separator. intros H. apply andb_prop in H. destruct H as [H Hc].
  apply andb_prop in H. destruct H as [Ht He]. apply negb_true_iff in Hc.
  split; [exact Hc |]. destruct text; [discriminate | exact He].
Qed.

(** The candidates of a page with three links. *)
Lemma scan_three (t0 l1 t1 l2 t2 l3 t3 : string) :
  Py.contains REDIRECT_PREFIX t0 = false ->
  separator t1 = true -> separator t2 = true ->
  t3 = EmptyString \/ separator t3 = true ->
  is_candidate l1 -> is_candidate l2 -> is_candidate l3 ->
  _iter_redirect_urls (t0 ++ l1 ++ t1 ++ l2 ++ t2 ++ l3 ++ t3) = [l1; l2; l3].
Proof.
  intros H0 H1 H2 H3 C1 C2 C3.
  destruct (separator_spec t1 (l2 ++ t2 ++ l3 ++ t3) H1) as [F1 E1].
  destruct (separator_spec t2 (l3 ++ t3) H2) as [F2 E2].
  assert (F3 : Py.contains REDIRECT_PREFIX t3 = false /\ ends_candidate t3 = true).
  { destruct H3 as [-> | H3]; [split; reflexivity |].
    destruct (separator_spec t3 EmptyString H3) as [F E].
    rewrite append_empty in E. auto. }
  rewrite (scan_step t0 l1 _ H0 C1 E1), (scan_step t1 l2 _ F1 C2 E2),
    (scan_step t2 l3 t3 F2 C3 (proj2 F3)), (scan_none t3 (proj1 F3)).
  reflexivity.
Qed.

Lemma parse_candidate_of_link (L : Externals) (idx : nat) (raw_url event dest : string) :
  redirect_link L raw_url event dest ->
  parse_candidate L idx raw_url = Ret [(event, dest, idx)].
Proof.
  intros (parsed & target & more & Hp & Hq & -> & He).
  unfold parse_candidate. rewrite Hp. cbn [obind]. rewrite Hq.
  destruct He as [[-> ->] | [events ->]]; reflexivity.
Qed.

Lemma parse_candidate_link (L : Externals) (idx : nat) (raw_url : string)
    (items : list Item) (event dest : string) (i : nat) :
  parse_candidate L idx raw_url = Ret items -> In (event, dest, i) items ->
  i = idx /\ redirect_link L raw_url event dest.
Proof.
  unfold parse_candidate, redirect_link.
  destruct (Urllib.urlparse L raw_url EmptyString) as [parsed | e]; cbn [obind];
    [| discriminate].
  destruct (Urllib.dict_get (Urllib.parse_qs L (Urllib.query parsed)) "q")
    as [[| target targets] |] eqn:Eq; try (intros [= <-] []).
  destruct (Urllib.dict_get (Urllib.parse_qs L (Urllib.query parsed)) "event")
    as [[| ev events] |] eqn:Ee; try discriminate;
    intros [= <-] [[= <- <- <-] | []]; (split; [reflexivity |]);
    exists parsed, target, targets; repeat split; try assumption.
  - right. exists events. exact Ee.
  - left. split; [exact Ee | reflexivity].
Qed.

(** The entries of [structured] are the candidates that carry a [q]
    parameter, each with its tag, its destination and its position among
    the candidates. *)
Lemma build_structured_links (L : Externals) (candidates : list string) :
  forall idx structured,
    build_structured L idx candidates = Ret structured ->
    forall event dest i,
      In (event, dest, i) structured <->
      exists k raw_url,
        i = idx + k /\ nth_error candidates k = Some raw_url
        /\ redirect_link L raw_url event dest.
Proof.
  induction candidates as [| raw rest IH]; intros idx structured; cbn [build_structured].
  - intros [= <-] event dest i. split; [intros [] |].
    intros (k & r & _ & Hk & _). destruct k; discriminate Hk.
  - destruct (parse_candidate L idx raw) as [items | e] eqn:Ei; cbn [obind];
      [| discriminate].
    destruct (build_structured L (S idx) rest) as [more | e] eqn:Em; cbn [obind];
      [| discriminate].
    intros [= <-] event dest i. rewrite in_app_iff, (IH (S idx) more Em). split.
    + intros [Hin | (k & r & -> & Hk & Hl)].
      * destruct (parse_candidate_link L idx raw items event dest i Ei Hin) as [-> Hl].
        exists 0, raw. split; [lia | split; [reflexivity | exact Hl]].
      * exists (S k), r. split; [lia | split; [exact Hk | exact Hl]].
    + intros (k & r & -> & Hk & Hl). destruct k as [| k].
      * left. cbn [nth_error] in Hk. apply some_inj in Hk. subst r.
        rewrite (parse_candidate_of_link L idx raw event dest Hl) in Ei.
        replace items with [(event, dest, idx)] by congruence.
        left. f_equal. lia.
      * right. exists k, r. split; [lia | split; [exact Hk | exact Hl]].
Qed.

Lemma three_links_order (d1 d2 d3 : string) (i j k : nat) :
  d1 <> EmptyString -> d2 <> EmptyString -> d3 <> EmptyString ->
  d1 <> d2 -> d1 <> d3 -> d2 <> d3 ->
  collect_links
    (sort_by_key [("channel_description", d1, i); ("channel_header", d2, j);
                  (EmptyString, d3, k)]) [] []
  = [d2; d1; d3].
Proof.
  intros H1 H2 H3 H12 H13 H23. rewrite collect_links_kept.
  cbn [sort_by_key insert_by_key].
  change (key_leb (sort_key ("channel_header", d2, j)) (sort_key (EmptyString, d3, k)))
    with true.
  cbv beta iota. cbn [insert_by_key].
  change (key_leb (sort_key ("channel_description", d1, i))
            (sort_key ("channel_header", d2, j))) with false.
  cbv beta iota. cbn [insert_by_key].
  change (key_leb (sort_key ("channel_description", d1, i))
            (sort_key (EmptyString, d3, k))) with true.
  cbv beta iota.
  cbn [kept_items item_dest fst snd Py.str_in existsb].
  destruct d1 as [| c1 d1]; [contradiction |].
  destruct d2 as [| c2 d2]; [contradiction |].
  destruct d3 as [| c3 d3]; [contradiction |].
  cbn [Py.truthy negb orb].
  apply String.eqb_neq in H12, H13, H23.
  rewrite H12. cbn [orb].
  rewrite (String.eqb_sym (String c3 d3) (String c1 d1)), H13.
  rewrite (String.eqb_sym (String c3 d3) (String c2 d2)), H23.
  reflexivity.
Qed.

(** C1: for every page text [parse_channel_links] returns the destinations
    of entries chosen from [structured].  The entries of [structured] are
    the redirect links among the candidates of the page that carry a [q]
    parameter, each with the first value of its [event] parameter as tag
    (empty when it has none) and its position among the candidates as
    discovery index; the candidates are found from left to right.  The
    chosen entries are ordered by tag rank first ([channel_header],
    [channel_about_metadata], [channel_description], any other tag) and
    discovery index second, their destinations are non-empty and distinct,
    and every non-empty destination is placed by its entry of least key.
    In particular, for a page that holds three links tagged
    [channel_description], [channel_header] and untagged, in that order
    and with distinct non-empty destinations, the result is the header
    destination, the description one and the untagged one, in that
    order. *)
Theorem parse_channel_links_priority_order (L : Externals) (page_text : string) :
  (event_rank "channel_header" = 0
   /\ event_rank "channel_about_metadata" = 1
   /\ event_rank "channel_description" = 2
   /\ forall event, ~ In event events_priority -> event_rank event = 3)
  /\ (exists structured links,
        structured_of L page_text = Ret structured
        /\ (forall event dest idx,
              In (event, dest, idx) structured <->
              exists raw_url,
                nth_error (_iter_redirect_urls page_text) idx = Some raw_url
                /\ redirect_link L raw_url event dest)
        /\ StronglySorted lt (map item_idx structured)
        /\ parse_channel_links L page_text = Ret links
        /\ exists chosen,
             links = map item_dest chosen
             /\ incl chosen structured
             /\ StronglySorted key_le chosen
             /\ NoDup (map item_dest chosen)
             /\ (forall c, In c chosen -> item_dest c <> EmptyString)
             /\ forall it, In it structured -> item_dest it <> EmptyString ->
                  exists c, In c chosen /\ item_dest c = item_dest it /\ key_le c it)
  /\ (forall before link rest,
        page_text = before ++ link ++ rest ->
        Py.contains REDIRECT_PREFIX before = false ->
        is_candidate link -> ends_candidate rest = true ->
        _iter_redirect_urls page_text = link :: _iter_redirect_urls rest)
  /\ (forall t0 l1 t1 l2 t2 l3 t3 d1 d2 d3,
        page_text = t0 ++ l1 ++ t1 ++ l2 ++ t2 ++ l3 ++ t3 ->
        Py.contains REDIRECT_PREFIX t0 = false ->
        separator t1 = true -> separator t2 = true ->
        t3 = EmptyString \/ separator t3 = true ->
        is_candidate l1 -> is_candidate l2 -> is_candidate l3 ->
        redirect_link L l1 "channel_description" d1 ->
        redirect_link L l2 "channel_header" d2 ->
        redirect_link L l3 EmptyString d3 ->
        d1 <> EmptyString -> d2 <> EmptyString -> d3 <> EmptyString ->
        d1 <> d2 -> d1 <> d3 -> d2 <> d3 ->
        parse_channel_links L page_text = Ret [d2; d1; d3]).
Proof.
  split; [exact event_rank_spec |]. split; [| split].
  - destruct (structured_of_total L page_text) as [structured Hs].
    exists structured. eexists. split; [exact Hs |].
    split.
    { intros event dest idx.
      rewrite (build_structured_links L _ 0 structured Hs event dest idx). split.
      - intros (k & r & -> & Hk & Hl). exists r. auto.
      - intros (r & Hk & Hl). exists idx, r. auto. }
    split; [apply (build_structured_idx L _ 0 structured Hs) |].
    split; [apply (parse_channel_links_kept L page_text structured Hs) |].
    exists (kept_items (sort_by_key structured) []). split; [reflexivity |].
    split; [| split; [| split; [| split]]].
    + intros c Hc. apply kept_items_in in Hc. apply sort_by_key_in. tauto.
    + apply kept_items_sorted, sort_by_key_sorted.
    + apply kept_items_nodup.
    + intros c Hc. apply kept_items_in in Hc. apply truthy_true. tauto.
    + intros it Hin Hne.
      destruct (kept_items_represent key_le (sort_by_key structured)
                  (sort_by_key_sorted structured) [] it) as (c & Hc & Ec & Hr).
      * now apply sort_by_key_in.
      * destruct (item_dest it); [contradiction | reflexivity].
      * intros [].
      * exists c. split; [exact Hc |]. split; [exact Ec |].
        destruct Hr as [-> | Hr]; [apply key_le_refl | exact Hr].
  - intros before link rest -> Hb Hl Hr. exact (scan_step before link rest Hb Hl Hr).
  - intros t0 l1 t1 l2 t2 l3 t3 d1 d2 d3 -> H0 H1 H2 H3 C1 C2 C3 R1 R2 R3
      N1 N2 N3 N12 N13 N23.
    unfold parse_channel_links, structured_of.
    rewrite (scan_three t0 l1 t1 l2 t2 l3 t3 H0 H1 H2 H3 C1 C2 C3).
    cbn [build_structured].
    rewrite (parse_candidate_of_link L 0 l1 _ d1 R1),
      (parse_candidate_of_link L 1 l2 _ d2 R2),
      (parse_candidate_of_link L 2 l3 _ d3 R3).
    cbn [obind app]. f_equal.
    exact (three_links_order d1 d2 d3 0 1 2 N1 N2 N3 N12 N13 N23).
Qed.

Lemma parse_channel_links_priority_order_witness :
  parse_channel_links example_externals
    "[a](https://www.youtube.com/redirect?event=channel_description&q=https%3A%2F%2Fa.example) [b](https://www.youtube.com/redirect?event=channel_header&q=https%3A%2F%2Fb.example) https://www.youtube.com/redirect?q=https%3A%2F%2Fc.example"
  = Ret ["https://b.example"; "https://a.example"; "https://c.example"].
Proof.
  apply (proj2 (proj2 (proj2 (parse_channel_links_priority_order example_externals _)))
           "[a]("
           "https://www.youtube.com/redirect?event=channel_description&q=https%3A%2F%2Fa.example"
           ") [b]("
           "https://www.youtube.com/redirect?event=channel_header&q=https%3A%2F%2Fb.example"
           ") "
           "https://www.youtube.com/redirect?q=https%3A%2F%2Fc.example"
           EmptyString).
  - reflexivity.
  - reflexivity.
  - reflexivity.
  - reflexivity.
  - left. reflexivity.
  - eexists. split; reflexivity.
  - eexists. split; reflexivity.
  - eexists. split; reflexivity.
  - eexists. eexists. eexists. split; [vm_compute; reflexivity |].
    split; [vm_compute; reflexivity |]. split; [vm_compute; reflexivity |].
    right. eexists. vm_compute. reflexivity.
  - eexists. eexists. eexists. split; [vm_compute; reflexivity |].
    split; [vm_compute; reflexivity |]. split; [vm_compute; reflexivity |].
    right. eexists. vm_compute. reflexivity.
  - eexists. eexists. eexists. split; [vm_compute; reflexivity |].
    split; [vm_compute; reflexivity |]. split; [vm_compute; reflexivity |].
    left. split; vm_compute; reflexivity.
  - discriminate.
  - discriminate.
  - discriminate.
  - discriminate.
  - discriminate.
  - discriminate.
Defined.

(** C2: for every page text the returned list has no duplicate and no
    empty string; it holds exactly the non-empty destinations found, each
    once, in the order of their first occurrences after the sort. *)
Theorem parse_channel_links_deduplicated (L : Externals) (page_text : string) :
  exists structured links,
    structured_of L page_text = Ret structured
    /\ parse_channel_links L page_text = Ret links
    /\ NoDup links
    /\ ~ In EmptyString links
    /\ (forall d, In d links <-> d <> EmptyString /\ In d (map item_dest structured))
    /\ (let dests := map item_dest (sort_by_key structured) in
        StronglySorted (fun a b => first_index a dests < first_index b dests) links).
Proof.
  destruct (structured_of_total L page_text) as [structured Hs].
  exists structured. eexists. split; [exact Hs |].
  split; [apply (parse_channel_links_kept L page_text structured Hs) |].
  assert (Hmem : forall d,
             In d (map item_dest (kept_items (sort_by_key structured) []))
             <-> d <> EmptyString /\ In d (map item_dest structured)).
  { intros d. rewrite !in_map_iff. split.
    - intros (c & <- & Hc). apply kept_items_in in Hc. destruct Hc as (Hin & Ht & _).
      split; [now apply truthy_true |].
      exists c. split; [reflexivity | now apply sort_by_key_in].
    - intros (Hne & it & <- & Hin).
      destruct (kept_items_represent key_le (sort_by_key structured)
                  (sort_by_key_sorted structured) [] it) as (c & Hc & Ec & _).
      + now apply sort_by_key_in.
      + destruct (item_dest it); [contradiction | reflexivity].
      + intros [].
      + exists c. auto. }
  split; [apply kept_items_nodup |].
  split; [intros H; apply Hmem in H; destruct H as [H _]; now apply H |].
  split; [exact Hmem |].
  apply (kept_items_first_index (sort_by_key structured) [] []).
  intros d. simpl. tauto.
Qed.

(** A page with links tagged [channel_description], [channel_header],
    untagged, and a repeated destination. *)
Example parse_channel_links_example :
  parse_channel_links example_externals
    "[a](https://www.youtube.com/redirect?event=channel_description&q=https%3A%2F%2Fa.example) [b](https://www.youtube.com/redirect?event=channel_header&q=https%3A%2F%2Fb.example) https://www.youtube.com/redirect?q=https%3A%2F%2Fc.example and [a](https://www.youtube.com/redirect?event=channel_header&q=https%3A%2F%2Fa.example)"
  = Ret ["https://b.example"; "https://a.example"; "https://c.example"].
Proof. vm_compute. reflexivity. Qed.

(** ** The scrape loop *)

(** When [about_url] returns, the canonical URL is there and not empty. *)
Lemma about_url_canonical (L : Externals) (sub : Subscription) (about : string) :
  about_url L sub = Ret about ->
  exists c, normalise_channel_url L (url sub) (channel_id sub) = Ret (Some c)
            /\ Py.truthy c = true /\ about = c ++ "/about".
Proof.
  unfold about_url.
  destruct (normalise_channel_url L (url sub) (channel_id sub)) as [[c |] | e];
    cbn [obind Py.otruthy negb]; try discriminate.
  destruct (Py.truthy c) eqn:E; cbn [negb]; [| discriminate].
  intros [= <-]. exists c. auto.
Qed.

Section Loop.

Variable L : Externals.
Variable W : World.
Variable on_update : option (list ChannelResult -> outcome unit).
Variable lf : option (list string).

(** Whatever its outcome, an iteration leaves [results] as it is or appends
    the record of its subscription. *)
Lemma iteration_appends (index : nat) (sub : Subscription) (rs : list ChannelResult) :
  fst (iteration L W on_update lf index sub rs) = rs
  \/ exists r, record_of L W lf index sub r
               /\ fst (iteration L W on_update lf index sub rs) = (rs ++ [r])%list.
Proof.
  unfold iteration, lbind, try_, lift, tick, append, call_on_update, lret, lraise.
  cbv zeta.
  destruct (interrupt W index AtProgress); [left; reflexivity |].
  destruct (interrupt W index AtAboutUrl); [left; reflexivity |].
  destruct (about_url L sub) as [about | e] eqn:Ea.
  2:{ destruct (is_ValueError e); [destruct (interrupt W index AtSkipNotice) |];
      left; reflexivity. }
  destruct (interrupt W index AtFetch); [left; reflexivity |].
  destruct (fetch_about_page W index about) as [page | e] eqn:Ef.
  2:{ destruct (is_Exception e); [destruct (interrupt W index AtFailNotice) |];
      left; reflexivity. }
  destruct (interrupt W index AtParse); [left; reflexivity |].
  destruct (parse_channel_links L page) as [parsed | e] eqn:Ep; [| left; reflexivity].
  destruct (interrupt W index AtFilter); [left; reflexivity |].
  destruct (interrupt W index AtNormalise); [left; reflexivity |].
  destruct (about_url_canonical L sub about Ea) as (c & Hn & Hc & _).
  rewrite Hn, Hc.
  right. exists (mkResult (title sub) c (filter_links lf parsed)).
  split; [exists about, page, parsed, c; repeat split; assumption |].
  destruct (interrupt W index AtUpdate); [reflexivity |].
  destruct on_update as [f |].
  - destruct (f _); [| reflexivity].
    destruct (interrupt W index AtReport); [reflexivity |].
    destruct (interrupt W index AtSleep); reflexivity.
  - destruct (interrupt W index AtReport); [reflexivity |].
    destruct (interrupt W index AtSleep); reflexivity.
Qed.

End Loop.

(** The modelled part of [urllib.parse] raises nothing but [ValueError]. *)
Lemma urlsplit_raises (L : Externals) (u s : string) (e : exn) :
  Urllib.urlsplit L u s = Raise e -> e = ValueError.
Proof.
  unfold Urllib.urlsplit.
  destruct (Urllib.split_scheme _ _) as [sch rest].
  destruct (String.prefix "//" rest).
  - destruct (Urllib.splitnetloc rest) as [n r].
    repeat match goal with
           | |- context [if ?b then _ else _] => destruct b
           end; cbn [obind];
      repeat match goal with
             | |- context [Urllib.split_off ?c ?x] => destruct (Urllib.split_off c x)
             end; congruence.
  - cbn [obind].
    repeat match goal with
           | |- context [Urllib.split_off ?c ?x] => destruct (Urllib.split_off c x)
           end; congruence.
Qed.

Lemma urlparse_raises (L : Externals) (u s : string) (e : exn) :
  Urllib.urlparse L u s = Raise e -> e = ValueError.
Proof.
  unfold Urllib.urlparse.
  destruct (Urllib.urlsplit L u s) as [r | e'] eqn:E; cbn [obind].
  - destruct (if Py.str_in (Urllib.s_scheme r) Urllib.uses_params
                  && Py.mem_char ";" (Urllib.s_path r)
              then Urllib.splitparams (Urllib.s_path r)
              else (Urllib.s_path r, EmptyString)); discriminate.
  - intros [= <-]. exact (urlsplit_raises L u s e' E).
Qed.

Lemma urljoin_raises (L : Externals) (base u : string) (e : exn) :
  Urllib.urljoin L base u = Raise e -> e = ValueError.
Proof.
  unfold Urllib.urljoin.
  destruct (negb (Py.truthy base)); [discriminate |].
  destruct (negb (Py.truthy u)); [discriminate |].
  destruct (Urllib.urlparse L base EmptyString) as [b | e1] eqn:E1; cbn [obind];
    [| intros [= <-]; exact (urlparse_raises _ _ _ _ E1)].
  destruct (Urllib.urlparse L u (Urllib.scheme b)) as [p | e2] eqn:E2; cbn [obind];
    [| intros [= <-]; exact (urlparse_raises _ _ _ _ E2)].
  repeat match goal with
         | |- context [if ?b then _ else _] => destruct b
         end; discriminate.
Qed.

Lemma resolve_raises (L : Externals) (u : string) (e : exn) :
  resolve_channel_url L u = Raise e -> e = ValueError.
Proof.
  unfold resolve_channel_url.
  destruct (Urllib.urlparse L (Py.strip u) "https") as [p | e1] eqn:E1; cbn [obind];
    [| intros [= <-]; exact (urlparse_raises _ _ _ _ E1)].
  destruct (negb (Py.truthy (Urllib.netloc p))).
  - destruct (Urllib.urljoin L YOUTUBE_ORIGIN (Py.strip u)) as [j | e2] eqn:E2;
      cbn [obind]; [apply urlparse_raises | intros [= <-]; exact (urljoin_raises _ _ _ _ E2)].
  - destruct (negb (Py.truthy (Urllib.scheme p))); discriminate.
Qed.

Lemma normalise_raises (L : Externals) (u : string) (cid : option string) (e : exn) :
  normalise_channel_url L u cid = Raise e -> e = ValueError.
Proof.
  unfold normalise_channel_url.
  destruct (negb (Py.truthy u)); [discriminate |].
  destruct (resolve_channel_url L u) as [p | e1] eqn:E1; cbn [obind];
    [| intros [= <-]; exact (resolve_raises _ _ _ E1)].
  destruct (negb _); discriminate.
Qed.

(** [about_url] raises nothing but [ValueError]. *)
Lemma about_url_raises (L : Externals) (sub : Subscription) (e : exn) :
  about_url L sub = Raise e -> e = ValueError.
Proof.
  unfold about_url.
  destruct (normalise_channel_url L (url sub) (channel_id sub)) as [b | e1] eqn:E1;
    cbn [obind]; [| intros [= <-]; exact (normalise_raises _ _ _ _ E1)].
  destruct (negb (Py.otruthy b)); [congruence |].
  destruct b; congruence.
Qed.

(** The allow-list filter keeps the links that match a filter term. *)
Lemma filter_links_spec (url_filters : option (list string)) (parsed : list string)
    (link : string) :
  In link (filter_links (lower_filters url_filters) parsed)
  <-> In link parsed /\ allowed url_filters link.
Proof.
  destruct url_filters as [[| f fs] |]; cbn [lower_filters filter_links allowed];
    [tauto | | tauto].
  rewrite filter_In, existsb_exists. unfold matches_filter.
  split; intros [Hin (x & Hx & Hc)]; (split; [exact Hin |]).
  - apply in_map_iff in Hx. destruct Hx as (term & <- & Hterm). exists term. auto.
  - exists (Py.lower x). split; [now apply in_map | exact Hc].
Qed.

(** What [scrape_links] returns is what the loop appended. *)
Lemma scrape_links_returns_appended (L : Externals) (W : World)
    (subs : list Subscription) (url_filters : option (list string))
    (on_update : option (list ChannelResult -> outcome unit)) (rs : list ChannelResult) :
  scrape_links L W subs url_filters on_update = Ret rs ->
  rs = appended L W subs url_filters on_update.
Proof.
  unfold scrape_links, appended.
  destruct (for_each L W on_update (lower_filters url_filters) 1 subs []) as [rs' [u | e]];
    cbn [fst]; [congruence |].
  destruct (is_KeyboardInterrupt e); congruence.
Qed.

Section QuietLoop.

Variable L : Externals.
Variable W : World.
Variable on_update : option (list ChannelResult -> outcome unit).
Variable lf : option (list string).


(** A run only appends, and only records of its subscriptions. *)
Lemma for_each_appends (subs : list Subscription) :
  forall index rs,
  exists extra,
    fst (for_each L W on_update lf index subs rs) = (rs ++ extra)%list
    /\ Forall (fun r => exists i sub, In sub subs /\ record_of L W lf i sub r) extra.
Proof.
  induction subs as [| sub subs IH]; intros index rs; simpl.
  - exists []. split; [now rewrite app_nil_r | constructor].
  - unfold lbind.
    pose proof (iteration_appends L W on_update lf index sub rs) as Hit.
    destruct (iteration L W on_update lf index sub rs) as [rs1 [u | e]]; cbn [fst] in *.
    + destruct (IH (S index) rs1) as (extra & E & Hall).
      assert (Hall' : Forall (fun r => exists i sub0,
                                  In sub0 (sub :: subs) /\ record_of L W lf i sub0 r) extra).
      { eapply Forall_impl; [| exact Hall]. intros r (i & s & Hin & Hr).
        exists i, s. split; [now right | exact Hr]. }
      destruct Hit as [-> | (r & Hr & ->)].
      * exists extra. auto.
      * exists (r :: extra). split; [rewrite E, <- app_assoc; reflexivity |].
        constructor; [| exact Hall']. exists index, sub. split; [now left | exact Hr].
    + destruct Hit as [-> | (r & Hr & ->)].
      * exists []. split; [now rewrite app_nil_r | constructor].
      * exists [r]. split; [reflexivity |].
        constructor; [| constructor]. exists index, sub. split; [now left | exact Hr].
Qed.

Hypothesis no_interrupt : forall i p, interrupt W i p = false.
Hypothesis fetch_raises_exceptions :
  forall i target e, urlopen W i target = Raise e -> is_Exception e = true.
Hypothesis callback_returns :
  forall f rs, on_update = Some f -> f rs = Ret tt.

(** Without interrupts, an iteration appends the record of a fetched
    subscription and skips any other. *)
Lemma iteration_quiet (index : nat) (sub : Subscription) (rs : list ChannelResult) :
  (fetched L W index sub = true ->
   exists r, record_of L W lf index sub r
             /\ iteration L W on_update lf index sub rs = ((rs ++ [r])%list, Ret tt))
  /\ (fetched L W index sub = false ->
      iteration L W on_update lf index sub rs = (rs, Ret tt)).
Proof.
  unfold fetched, iteration, lbind, try_, lift, tick, append, call_on_update, lret, lraise.
  cbv zeta. rewrite !no_interrupt.
  destruct (about_url L sub) as [about | e] eqn:Ea.
  2:{ rewrite (about_url_raises L sub e Ea). cbn [is_ValueError].
      split; [discriminate | reflexivity]. }
  destruct (fetch_about_page W index about) as [page | e] eqn:Ef.
  2:{ unfold fetch_about_page in Ef. rewrite (fetch_raises_exceptions _ _ _ Ef).
      split; [discriminate | reflexivity]. }
  split; [intros _ | discriminate].
  destruct (parse_channel_links_total L page) as [parsed Ep]. rewrite Ep.
  destruct (about_url_canonical L sub about Ea) as (c & Hn & Hc & _).
  rewrite Hn, Hc.
  exists (mkResult (title sub) c (filter_links lf parsed)).
  split; [exists about, page, parsed, c; repeat split; assumption |].
  destruct on_update as [f |] eqn:Eu; [rewrite (callback_returns f _ eq_refl) |];
    reflexivity.
Qed.

(** Without interrupts the loop completes, with one record for each
    fetched subscription, in order. *)
Lemma for_each_quiet (subs : list Subscription) :
  forall index rs,
  exists extra,
    for_each L W on_update lf index subs rs = ((rs ++ extra)%list, Ret tt)
    /\ Forall2 (fun sub r => exists i, record_of L W lf i sub r)
         (fetched_from L W index subs) extra.
Proof.
  induction subs as [| sub subs IH]; intros index rs; simpl.
  - exists []. split; [unfold lret; now rewrite app_nil_r | constructor].
  - unfold lbind. destruct (iteration_quiet index sub rs) as [Hyes Hno].
    destruct (fetched L W index sub).
    + destruct (Hyes eq_refl) as (r & Hr & ->).
      destruct (IH (S index) (rs ++ [r])%list) as (extra & -> & Hall).
      exists (r :: extra). split; [now rewrite <- app_assoc |].
      constructor; [exists index; exact Hr | exact Hall].
    + rewrite (Hno eq_refl). destruct (IH (S index) rs) as (extra & -> & Hall).
      exists extra. auto.
Qed.
End QuietLoop.



(** C7: in a run without interrupts, where a failing fetch raises an
    [Exception] and the callback returns, a subscription whose about URL or
    whose fetch fails leaves [results] as it is and the loop goes on;
    [scrape_links] returns one record for each fetched subscription, in
    input order. *)
Theorem failed_subscriptions_are_skipped
    (L : Externals) (W : World) (subs : list Subscription)
    (url_filters : option (list string))
    (on_update : option (list ChannelResult -> outcome unit)) :
  (forall i p, interrupt W i p = false) ->
  (forall i target e, urlopen W i target = Raise e -> is_Exception e = true) ->
  (forall f rs, on_update = Some f -> f rs = Ret tt) ->
  (forall index sub rs,
      fetched L W index sub = false ->
      iteration L W on_update (lower_filters url_filters) index sub rs = (rs, Ret tt))
  /\ exists rs,
       scrape_links L W subs url_filters on_update = Ret rs
       /\ Forall2
            (fun sub r => exists i, record_of L W (lower_filters url_filters) i sub r)
            (fetched_from L W 1 subs) rs.
Proof.
  intros Hq Hf Hu. split.
  - intros index sub rs.
    apply (iteration_quiet L W on_update (lower_filters url_filters) Hq Hf Hu index sub rs).
  - destruct (for_each_quiet L W on_update (lower_filters url_filters) Hq Hf Hu subs 1 [])
      as (extra & E & Hall).
    exists extra. split; [| exact Hall].
    unfold scrape_links. rewrite E. reflexivity.
Qed.

(** C7 in a run of four subscriptions: the fetch of the second fails and
    the third has no YouTube URL. *)
Lemma failed_subscriptions_are_skipped_witness :
  (forall index sub rs,
      fetched example_externals (failing_world example_page 2) index sub = false ->
      iteration example_externals (failing_world example_page 2) None
        (lower_filters (Some ["twitter"])) index sub rs = (rs, Ret tt))
  /\ exists rs,
       scrape_links example_externals (failing_world example_page 2)
         example_subscriptions (Some ["twitter"]) None = Ret rs
       /\ Forall2
            (fun sub r =>
               exists i, record_of example_externals (failing_world example_page 2)
                           (lower_filters (Some ["twitter"])) i sub r)
            (fetched_from example_externals (failing_world example_page 2) 1
               example_subscriptions) rs.
Proof.
  apply (failed_subscriptions_are_skipped example_externals
           (failing_world example_page 2) example_subscriptions (Some ["twitter"]) None).
  - intros i p. reflexivity.
  - intros i target e. simpl. destruct (Nat.eqb i 2); intros [= <-]. reflexivity.
  - intros f rs. discriminate.
Defined.

(** The run of the witness of C7, with the filter [twitter]. *)
Example scrape_links_example :
  scrape_links example_externals (failing_world example_page 2)
    example_subscriptions (Some ["twitter"]) None
  = Ret [mkResult "Foo" "https://www.youtube.com/c/foo" ["https://Twitter.com/foo"];
         mkResult "Qux" "https://www.youtube.com/user/qux" ["https://Twitter.com/foo"]].
Proof. vm_compute. reflexivity. Qed.

(** C8: the links of every appended record are the links parsed from the
    page of its subscription that, in lower case, contain one of the filter
    terms in lower case; without filters they are all the parsed links. *)
Theorem filters_keep_matching_links
    (L : Externals) (W : World) (subs : list Subscription)
    (url_filters : option (list string))
    (on_update : option (list ChannelResult -> outcome unit)) :
  Forall
    (fun r =>
       exists i sub about page parsed,
         In sub subs
         /\ about_url L sub = Ret about
         /\ fetch_about_page W i about = Ret page
         /\ parse_channel_links L page = Ret parsed
         /\ (forall link, In link (links r) <-> In link parsed /\ allowed url_filters link)
         /\ (url_filters = None \/ url_filters = Some [] -> links r = parsed))
    (appended L W subs url_filters on_update)
  /\ (forall rs, scrape_links L W subs url_filters on_update = Ret rs ->
                 rs = appended L W subs url_filters on_update).
Proof.
  split; [| intros rs; apply scrape_links_returns_appended].
  unfold appended.
  destruct (for_each_appends L W on_update (lower_filters url_filters) subs 1 [])
    as (extra & -> & Hall).
  cbn [app]. eapply Forall_impl; [| exact Hall].
  intros r (i & sub & Hin & about & page & parsed & c & Ha & Hf & Hp & _ & _ & ->).
  exists i, sub, about, page, parsed. cbn [links].
  repeat (split; [assumption |]). split.
  - intros link. apply filter_links_spec.
  - intros [-> | ->]; reflexivity.
Qed.

(** C10: the [channel_url] of every appended record is the non-empty
    canonical URL that [normalise_channel_url] gives for the url and the
    channel id of its subscription, so the fallback to the raw url is never
    taken. *)
Theorem appended_channel_url_is_canonical
    (L : Externals) (W : World) (subs : list Subscription)
    (url_filters : option (list string))
    (on_update : option (list ChannelResult -> outcome unit)) :
  Forall
    (fun r =>
       exists sub c,
         In sub subs
         /\ channel_title r = title sub
         /\ normalise_channel_url L (url sub) (channel_id sub) = Ret (Some c)
         /\ c <> EmptyString
         /\ channel_url r = c)
    (appended L W subs url_filters on_update)
  /\ (forall rs, scrape_links L W subs url_filters on_update = Ret rs ->
                 rs = appended L W subs url_filters on_update).
Proof.
  split; [| intros rs; apply scrape_links_returns_appended].
  unfold appended.
  destruct (for_each_appends L W on_update (lower_filters url_filters) subs 1 [])
    as (extra & -> & Hall).
  cbn [app]. eapply Forall_impl; [| exact Hall].
  intros r (i & sub & Hin & about & page & parsed & c & _ & _ & _ & Hn & Hc & ->).
  exists sub, c. cbn [channel_title channel_url].
  repeat (split; [assumption || reflexivity |]).
  split; [now apply truthy_true | reflexivity].
Qed.

(** ** Further properties of the subscription reader *)

Lemma lower_char_idem (c : ascii) : Py.lower_char (Py.lower_char c) = Py.lower_char c.
Proof. destruct c as [[|] [|] [|] [|] [|] [|] [|] [|]]; vm_compute; reflexivity. Qed.

Lemma isspace_lower_char (c : ascii) : Py.isspace (Py.lower_char c) = Py.isspace c.
Proof. destruct c as [[|] [|] [|] [|] [|] [|] [|] [|]]; vm_compute; reflexivity. Qed.

Lemma lower_idem (s : string) : Py.lower (Py.lower s) = Py.lower s.
Proof.
  induction s as [| c s IH]; simpl; [reflexivity |]. now rewrite lower_char_idem, IH.
Qed.

Lemma lstrip_lower (s : string) :
  Py.lstrip_by Py.isspace (Py.lower s) = Py.lower (Py.lstrip_by Py.isspace s).
Proof.
  induction s as [| c s IH]; simpl; [reflexivity |].
  rewrite isspace_lower_char. destruct (Py.isspace c); [exact IH | reflexivity].
Qed.

Lemma rstrip_lower (s : string) :
  Py.rstrip_by Py.isspace (Py.lower s) = Py.lower (Py.rstrip_by Py.isspace s).
Proof.
  induction s as [| c s IH]; simpl; [reflexivity |].
  rewrite IH, isspace_lower_char.
  destruct (Py.rstrip_by Py.isspace s); simpl; [destruct (Py.isspace c) |]; reflexivity.
Qed.

Lemma strip_lower (s : string) : Py.strip (Py.lower s) = Py.lower (Py.strip s).
Proof. unfold Py.strip. now rewrite lstrip_lower, rstrip_lower. Qed.

Lemma lstrip_length (p : ascii -> bool) (s : string) :
  String.length (Py.lstrip_by p s) <= String.length s.
Proof.
  induction s as [| c s IH]; simpl; [lia |]. destruct (p c); simpl; lia.
Qed.

Lemma lstrip_idem (p : ascii -> bool) (s : string) :
  Py.lstrip_by p (Py.lstrip_by p s) = Py.lstrip_by p s.
Proof.
  induction s as [| c s IH]; simpl; [reflexivity |].
  destruct (p c) eqn:E; [exact IH | simpl; now rewrite E].
Qed.

Lemma lstrip_of_rstrip (p : ascii -> bool) (x : string) :
  Py.lstrip_by p x = x -> Py.lstrip_by p (Py.rstrip_by p x) = Py.rstrip_by p x.
Proof.
  destruct x as [| c r]; [reflexivity |]. simpl.
  destruct (p c) eqn:E.
  - intros H. pose proof (lstrip_length p r) as Hl. rewrite H in Hl. simpl in Hl. lia.
  - intros _. destruct (Py.rstrip_by p r); simpl; now rewrite E.
Qed.

Lemma strip_idem (s : string) : Py.strip (Py.strip s) = Py.strip s.
Proof.
  unfold Py.strip. rewrite lstrip_of_rstrip by apply lstrip_idem.
  apply rstrip_by_idem.
Qed.

Lemma replace_underscore_none (s : string) :
  Py.mem_char "_" (Py.replace_char "_" " " s) = false.
Proof.
  induction s as [| c s IH]; simpl; [reflexivity |]. rewrite IH.
  destruct (Ascii.eqb c "_") eqn:E; [reflexivity |]. now rewrite E.
Qed.

Lemma lower_replace_underscore (s : string) :
  Py.lower (Py.replace_char "_" " " (Py.lower s))
  = Py.replace_char "_" " " (Py.lower s).
Proof.
  induction s as [| c s IH]; simpl; [reflexivity |]. rewrite IH. f_equal.
  destruct (Ascii.eqb (Py.lower_char c) "_"); [reflexivity | apply lower_char_idem].
Qed.

(** X1: the normalised column name does not depend on the case of the
    header nor on whitespace around it; it has no underscore and is in
    lower case. *)
Theorem column_name_ignores_case_and_padding (name : string) :
  _normalise_column_name (Py.lower name) = _normalise_column_name name
  /\ _normalise_column_name (Py.strip name) = _normalise_column_name name
  /\ Py.mem_char "_" (_normalise_column_name name) = false
  /\ Py.lower (_normalise_column_name name) = _normalise_column_name name.
Proof.
  unfold _normalise_column_name. repeat split.
  - now rewrite strip_lower, lower_idem.
  - now rewrite strip_idem.
  - apply replace_underscore_none.
  - apply lower_replace_underscore.
Qed.


Lemma row_subscription_shape (row : Row) (sub : Subscription) :
  _row_to_subscription row = Ret (Some sub) ->
  Py.strip (title sub) = title sub /\ Py.strip (url sub) = url sub
  /\ row_channel_id row = Ret (channel_id sub).
Proof.
  intros E. destruct (row_lookups row _ E) as (tv & uv & iv & Ht & Hu & Hi).
  rewrite (row_cases row tv uv iv Ht Hu Hi) in E. cbv zeta in E. rewrite Hi.
  destruct tv as [t |]; [| discriminate].
  destruct (Py.truthy t); [| discriminate].
  assert (Hsyn : Ret match iv with
                     | Some id =>
                         if Py.truthy id
                         then Some (mkSubscription (Py.strip t)
                                      (YOUTUBE_ORIGIN ++ "/channel/" ++ Py.strip id) (Some id))
                         else None
                     | None => None
                     end = Ret (Some sub) ->
                 Py.strip (title sub) = title sub /\ Py.strip (url sub) = url sub
                 /\ Ret iv = Ret (channel_id sub)).
  { destruct iv as [i |]; [| discriminate].
    destruct (Py.truthy i); [| discriminate].
    intros H. assert (H' : Some (mkSubscription (Py.strip t)
                                   (YOUTUBE_ORIGIN ++ "/channel/" ++ Py.strip i) (Some i))
                           = Some sub) by congruence.
    apply some_inj in H'. subst sub. cbn [title url channel_id].
    rewrite strip_idem, strip_channel_url. auto. }
  destruct uv as [u |]; [| exact (Hsyn E)].
  destruct (Py.truthy u); [| exact (Hsyn E)].
  assert (E' : Some (mkSubscription (Py.strip t) (Py.strip u) iv) = Some sub)
    by congruence.
  apply some_inj in E'. subst sub. cbn [title url channel_id].
  rewrite !strip_idem. auto.
Qed.

(** X3: every subscription read has a title and a url without surrounding
    whitespace, and the channel id as its row gives it; the rows are all
    read when none has surplus fields. *)
Theorem read_rows_stripped (rows : list Row) :
  (forall subscriptions, read_rows rows = Ret subscriptions ->
     Forall (fun sub =>
               Py.strip (title sub) = title sub
               /\ Py.strip (url sub) = url sub
               /\ exists row, In row rows /\ _row_to_subscription row = Ret (Some sub)
                              /\ row_channel_id row = Ret (channel_id sub))
       subscriptions)
  /\ (forallb no_surplus rows = true ->
      exists subscriptions, read_rows rows = Ret subscriptions).
Proof.
  split.
  - induction rows as [| row rows IH]; cbn [read_rows].
    + intros subs H. replace subs with (@nil Subscription) by congruence. constructor.
    + intros subs H.
      destruct (_row_to_subscription row) as [r | e] eqn:E; [| discriminate H].
      destruct (read_rows rows) as [more | e] eqn:Er; [| discriminate H].
      cbn [obind] in H.
      assert (IH' : Forall (fun sub =>
                Py.strip (title sub) = title sub
                /\ Py.strip (url sub) = url sub
                /\ exists row0, In row0 (row :: rows)
                                /\ _row_to_subscription row0 = Ret (Some sub)
                                /\ row_channel_id row0 = Ret (channel_id sub))
        more).
      { eapply Forall_impl; [| exact (IH more eq_refl)].
        intros sub (H1 & H2 & r0 & Hr & Hs).
        split; [exact H1 |]. split; [exact H2 |].
        exists r0. split; [now right | exact Hs]. }
      destruct r as [sub |].
      * replace subs with (sub :: more) by congruence.
        constructor; [| exact IH'].
        destruct (row_subscription_shape row sub E) as (H1 & H2 & H3).
        split; [exact H1 |]. split; [exact H2 |].
        exists row. split; [now left | auto].
      * replace subs with more by congruence. exact IH'.
  - induction rows as [| row rows IH]; cbn [read_rows forallb].
    + intros _. eexists; reflexivity.
    + intros H. apply andb_prop in H. destruct H as [Hrow Hrows].
      destruct (get_first_returns row ["channel title"; "title"] Hrow) as [tv Ht].
      destruct (get_first_returns row ["channel url"; "url"] Hrow) as [uv Hu].
      destruct (get_first_returns row ["channel id"; "id"] Hrow) as [iv Hi].
      rewrite (row_cases row tv uv iv Ht Hu Hi).
      destruct (IH Hrows) as [more ->]. cbn [obind]. eexists; reflexivity.
Qed.

(** ** Further properties of the normaliser *)

Lemma normalise_some_inv (L : Externals) (u : string) (cid : option string) (c : string) :
  normalise_channel_url L u cid = Ret (Some c) ->
  exists parsed, resolve_channel_url L u = Ret parsed
                 /\ c = canonical_base (channel_path parsed) cid.
Proof.
  unfold normalise_channel_url.
  destruct (negb (Py.truthy u)); [discriminate |].
  destruct (resolve_channel_url L u) as [parsed | e]; [| discriminate].
  cbn [obind].
  destruct (negb (Py.contains "youtube" (Py.lower (Urllib.netloc parsed))));
    [discriminate |].
  intros H. exists parsed. split; [reflexivity | congruence].
Qed.

Lemma canonical_base_rooted (path : string) (cid : option string) :
  exists p, canonical_base path cid = YOUTUBE_ORIGIN ++ p
            /\ (p = EmptyString \/ String.prefix "/" p = true).
Proof.
  destruct (canonical_base_cases path cid)
    as [(id & _ & _ & _ & E) | (_ & p & E & Hp & _)].
  - exists ("/channel/" ++ Py.strip id). split; [exact E |].
    right. apply (prefix_append "/" ("channel/" ++ Py.strip id)).
  - exists p. auto.
Qed.

(** X5: a canonical URL is on the YouTube origin, whatever scheme and host
    the input had: it is the origin alone or the origin followed by a path
    that starts with a slash.  It is never empty. *)
Theorem normalise_result_on_origin
    (L : Externals) (u : string) (cid : option string) (c : string) :
  normalise_channel_url L u cid = Ret (Some c) ->
  String.prefix YOUTUBE_ORIGIN c = true
  /\ exists p, c = YOUTUBE_ORIGIN ++ p
               /\ (p = EmptyString \/ String.prefix "/" p = true).
Proof.
  intros H. destruct (normalise_some_inv L u cid c H) as (parsed & _ & ->).
  destruct (canonical_base_rooted (channel_path parsed) cid) as (p & E & Hp).
  rewrite E. split; [apply prefix_append | exists p; auto].
Qed.

Lemma normalise_result_on_origin_witness :
  String.prefix YOUTUBE_ORIGIN "https://www.youtube.com/c/foo" = true
  /\ exists p, "https://www.youtube.com/c/foo" = YOUTUBE_ORIGIN ++ p
               /\ (p = EmptyString \/ String.prefix "/" p = true).
Proof.
  apply (normalise_result_on_origin example_externals "http://m.youtube.com/c/foo/about/"
           None).
  reflexivity.
Defined.

(** X6: [about_url] returns the canonical URL followed by [/about], or
    raises [ValueError] when there is no canonical URL; it raises nothing
    else. *)
Theorem about_url_or_value_error (L : Externals) (sub : Subscription) :
  (exists c, normalise_channel_url L (url sub) (channel_id sub) = Ret (Some c)
             /\ about_url L sub = Ret (c ++ "/about"))
  \/ (about_url L sub = Raise ValueError
      /\ (normalise_channel_url L (url sub) (channel_id sub) = Ret None
          \/ normalise_channel_url L (url sub) (channel_id sub) = Raise ValueError)).
Proof.
  unfold about_url.
  destruct (normalise_channel_url L (url sub) (channel_id sub)) as [[c |] | e] eqn:E;
    cbn [obind Py.otruthy negb].
  - left. exists c. split; [reflexivity |].
    destruct (normalise_some_inv L _ _ c E) as (parsed & _ & ->).
    destruct (canonical_base_rooted (channel_path parsed) (channel_id sub))
      as (p & -> & _).
    reflexivity.
  - right. auto.
  - right. rewrite (normalise_raises L _ _ e E). auto.
Qed.

Lemma normalise_of_canonical (L : Externals) (p : string) (cid : option string) :
  p = EmptyString \/ String.prefix "/" p = true ->
  plain_path p = true ->
  normalise_channel_url L (YOUTUBE_ORIGIN ++ p) cid
  = Ret (Some (canonical_base p cid)).
Proof.
  intros Hp Hplain. unfold plain_path in Hplain.
  apply andb_prop in Hplain. destruct Hplain as [Hplain Habout].
  apply andb_prop in Hplain. destruct Hplain as [Hchars Hslash].
  apply String.eqb_eq in Hslash. apply negb_true_iff in Habout.
  unfold normalise_channel_url.
  change (Py.truthy (YOUTUBE_ORIGIN ++ p)) with true. cbn [negb].
  rewrite (resolve_canonical L p Hp Hchars). cbn [obind Urllib.netloc].
  change (negb (Py.contains "youtube" (Py.lower "www.youtube.com"))) with false.
  cbv beta iota. unfold channel_path. cbn [Urllib.path].
  rewrite Hslash, Habout. reflexivity.
Qed.

(** X4: a row whose lookups return a non-empty title, no non-empty URL and
    a non-empty channel id gives a subscription whose about URL is the
    origin followed by [/channel/], the stripped id and [/about], when the
    id makes a plain path. *)
Theorem channel_id_row_about_url
    (L : Externals) (row : Row) (t id : string) (uv : option string) :
  row_title row = Ret (Some t) -> Py.truthy t = true ->
  row_url row = Ret uv -> Py.otruthy uv = false ->
  row_channel_id row = Ret (Some id) -> Py.truthy id = true ->
  plain_path ("/channel/" ++ Py.strip id) = true ->
  exists sub,
    _row_to_subscription row = Ret (Some sub)
    /\ about_url L sub
       = Ret (YOUTUBE_ORIGIN ++ "/channel/" ++ Py.strip id ++ "/about").
Proof.
  intros Ht Htt Hu Hut Hi Hit Hplain.
  exists (mkSubscription (Py.strip t) (YOUTUBE_ORIGIN ++ "/channel/" ++ Py.strip id)
            (Some id)).
  split.
  - rewrite (row_cases row (Some t) uv (Some id) Ht Hu Hi). cbv zeta. rewrite Htt, Hit.
    destruct uv as [u |]; [| reflexivity].
    cbn [Py.otruthy] in Hut. now rewrite Hut.
  - unfold about_url. cbn [url channel_id].
    change (YOUTUBE_ORIGIN ++ "/channel/" ++ Py.strip id)
      with (YOUTUBE_ORIGIN ++ ("/channel/" ++ Py.strip id)).
    rewrite (normalise_of_canonical L ("/channel/" ++ Py.strip id) (Some id));
      [| right; apply (prefix_append "/" ("channel/" ++ Py.strip id)) | exact Hplain].
    cbn [obind]. unfold canonical_base.
    rewrite (contains_of_prefix _ _ (prefix_append "/channel/" (Py.strip id))).
    rewrite andb_false_r.
    rewrite urlunparse_rooted
      by (right; apply (prefix_append "/" ("channel/" ++ Py.strip id))).
    change (Py.otruthy (Some (YOUTUBE_ORIGIN ++ "/channel/" ++ Py.strip id))) with true.
    cbn [negb]. reflexivity.
Qed.

Lemma channel_id_row_about_url_witness :
  exists sub,
    _row_to_subscription
      [Field "Channel Title" (Some "Foo"); Field "Channel_ID" (Some " UC123 ");
       Field "Channel Url" None]
    = Ret (Some sub)
    /\ about_url example_externals sub
       = Ret (YOUTUBE_ORIGIN ++ "/channel/" ++ Py.strip " UC123 " ++ "/about").
Proof.
  apply (channel_id_row_about_url example_externals
           [Field "Channel Title" (Some "Foo"); Field "Channel_ID" (Some " UC123 ");
            Field "Channel Url" None]
           "Foo" " UC123 " None);
    reflexivity.
Defined.

Lemma split_not_nil (c : ascii) (s : string) : Py.split c s <> [].
Proof.
  induction s as [| a r IH]; simpl; [discriminate |].
  destruct (Ascii.eqb a c); [discriminate |].
  destruct (Py.split c r); discriminate.
Qed.

(** Joining what [split] gives restores the string. *)
Lemma join_split (s : string) : Py.join "/" (Py.split "/" s) = s.
Proof.
  unfold Py.join. induction s as [| a r IH]; [reflexivity |].
  cbn [Py.split]. destruct (Ascii.eqb_spec a "/") as [-> | Hne].
  - pose proof (split_not_nil "/" r) as Hnil.
    destruct (Py.split "/" r) as [| h t]; [contradiction |].
    cbn [String.concat]. cbn [String.concat] in IH. rewrite IH. reflexivity.
  - pose proof (split_not_nil "/" r) as Hnil.
    destruct (Py.split "/" r) as [| h t]; [contradiction |].
    cbn [String.concat] in IH |- *. destruct t; simpl in *; now rewrite IH.
Qed.

Lemma resolve_segments_plain (segments : list string) :
  forallb (fun seg => negb (String.eqb seg ".." || String.eqb seg ".")) segments = true ->
  forall resolved,
    Urllib.resolve_segments segments resolved = (resolved ++ segments)%list.
Proof.
  induction segments as [| seg rest IH]; simpl; intros H resolved.
  - now rewrite app_nil_r.
  - apply andb_prop in H. destruct H as [Hseg Hrest].
    apply negb_true_iff, orb_false_elim in Hseg. destruct Hseg as [-> ->].
    rewrite (IH Hrest), <- app_assoc. reflexivity.
Qed.

Lemma last_plain (segments : list string) :
  forallb (fun seg => negb (String.eqb seg ".." || String.eqb seg ".")) segments = true ->
  Py.str_in (last segments EmptyString) ["."; ".."] = false.
Proof.
  induction segments as [| seg rest IH]; [reflexivity |].
  intros H. cbn [forallb] in H. apply andb_prop in H. destruct H as [Hseg Hrest].
  destruct rest as [| seg' rest'].
  - cbn [last]. apply negb_true_iff, orb_false_elim in Hseg. destruct Hseg as [H2 H1].
    unfold Py.str_in. cbn [existsb]. now rewrite H1, H2.
  - exact (IH Hrest).
Qed.

Lemma urlparse_rooted_path (L : Externals) (q : string) :
  String.prefix "/" q = false ->
  Py.all_chars plain_char (String "/" q) = true ->
  Urllib.urlparse L (String "/" q) "https"
  = Ret (Urllib.mkParse "https" "" (String "/" q) "" "" "").
Proof.
  intros Hq Hp. unfold Urllib.urlparse, Urllib.urlsplit.
  change (Py.lstrip_by Urllib.c0_control_or_space (String "/" q)) with (String "/" q).
  rewrite (plain_remove_unsafe _ Hp).
  assert (Hs : forall scheme,
             Urllib.split_scheme (String "/" q) scheme = (scheme, String "/" q)).
  { intros scheme. unfold Urllib.split_scheme. cbn [Py.partition].
    change (Ascii.eqb "/" ":") with false. cbv beta iota.
    destruct (Py.partition ":" q) as [[pre post] |]; reflexivity. }
  rewrite Hs.
  assert (Hpre : String.prefix "//" (String "/" q) = false).
  { destruct q as [| c q']; [reflexivity |]. simpl in Hq |- *. exact Hq. }
  rewrite Hpre. cbn [obind]. unfold Urllib.split_off.
  rewrite (plain_partition _ "#" Hp) by auto.
  rewrite (plain_partition _ "?" Hp) by auto.
  cbn [obind Urllib.s_scheme Urllib.s_path Urllib.s_netloc Urllib.s_query
         Urllib.s_fragment].
  rewrite (plain_no_semicolon _ Hp), andb_false_r. reflexivity.
Qed.

Lemma urlparse_on_origin (L : Externals) (p scheme : string) :
  p = EmptyString \/ String.prefix "/" p = true ->
  Py.all_chars plain_char p = true ->
  Urllib.urlparse L (YOUTUBE_ORIGIN ++ p) scheme
  = Ret (Urllib.mkParse "https" "www.youtube.com" p "" "" "").
Proof.
  intros Hshape Hp.
  assert (H : Urllib.urlparse L (YOUTUBE_ORIGIN ++ p) scheme
              = Urllib.urlparse L (YOUTUBE_ORIGIN ++ p) "https").
  { unfold Urllib.urlparse, Urllib.urlsplit.
    change (Py.lstrip_by Urllib.c0_control_or_space (YOUTUBE_ORIGIN ++ p))
      with (YOUTUBE_ORIGIN ++ p).
    change (Py.remove_chars Urllib.unsafe_url_byte (YOUTUBE_ORIGIN ++ p))
      with (YOUTUBE_ORIGIN ++ Py.remove_chars Urllib.unsafe_url_byte p).
    reflexivity. }
  rewrite H. apply urlparse_canonical; assumption.
Qed.

(** A rooted path without dot segments is resolved against the origin by
    appending it. *)
Lemma resolve_rooted_path (L : Externals) (q : string) :
  String.prefix "/" q = false ->
  Py.all_chars plain_char (String "/" q) = true ->
  no_dot_segments (String "/" q) = true ->
  resolve_channel_url L (String "/" q)
  = Ret (Urllib.mkParse "https" "www.youtube.com" (String "/" q) "" "" "").
Proof.
  intros Hq Hp Hdots. unfold resolve_channel_url.
  assert (Hstrip : Py.strip (String "/" q) = String "/" q).
  { unfold Py.strip. change (Py.lstrip_by Py.isspace (String "/" q)) with (String "/" q).
    apply plain_rstrip. exact Hp. }
  rewrite Hstrip, (urlparse_rooted_path L q Hq Hp). cbn [obind Urllib.netloc Py.truthy negb].
  assert (Hjoin : Urllib.urljoin L YOUTUBE_ORIGIN (String "/" q)
                  = Ret (YOUTUBE_ORIGIN ++ String "/" q)).
  { unfold Urllib.urljoin.
    change (negb (Py.truthy YOUTUBE_ORIGIN)) with false.
    change (negb (Py.truthy (String "/" q))) with false. cbv beta iota.
    pose proof (urlparse_on_origin L EmptyString EmptyString (or_introl eq_refl) eq_refl)
      as Hbase.
    change (YOUTUBE_ORIGIN ++ EmptyString) with YOUTUBE_ORIGIN in Hbase.
    rewrite Hbase. cbn [obind Urllib.scheme]. rewrite (urlparse_rooted_path L q Hq Hp).
    cbn [obind Urllib.scheme Urllib.netloc Urllib.path Urllib.params Urllib.query
           Urllib.fragment].
    change (negb (String.eqb "https" "https")
            || negb (Py.str_in "https" Urllib.uses_relative)) with false.
    change (Py.str_in "https" Urllib.uses_netloc) with true.
    cbn [Py.truthy andb negb]. cbv beta iota.
    change (String.prefix "/" (String "/" q)) with (String.prefix "" q).
    rewrite prefix_empty.
    unfold no_dot_segments in Hdots.
    rewrite (resolve_segments_plain _ Hdots), (last_plain _ Hdots).
    cbn [app]. rewrite join_split. cbn [Py.truthy].
    rewrite urlunparse_rooted by (right; apply (prefix_append "/" q)).
    reflexivity. }
  rewrite Hjoin. cbn [obind].
  apply urlparse_on_origin; [right; apply (prefix_append "/" q) | exact Hp].
Qed.

(** X7: a path that starts with one slash, has no whitespace, none of [?],
    [#] and [;] and no dot segment is normalised like the same path on the
    YouTube origin, and has a canonical URL. *)
Theorem relative_path_resolved_on_origin
    (L : Externals) (q : string) (cid : option string) :
  String.prefix "/" q = false ->
  Py.all_chars plain_char (String "/" q) = true ->
  no_dot_segments (String "/" q) = true ->
  normalise_channel_url L (String "/" q) cid
  = normalise_channel_url L (YOUTUBE_ORIGIN ++ String "/" q) cid
  /\ exists c, normalise_channel_url L (String "/" q) cid = Ret (Some c).
Proof.
  intros Hq Hp Hdots.
  assert (H : forall u,
             resolve_channel_url L u
             = Ret (Urllib.mkParse "https" "www.youtube.com" (String "/" q) "" "" "") ->
             Py.truthy u = true ->
             normalise_channel_url L u cid
             = Ret (Some (canonical_base
                            (channel_path
                               (Urllib.mkParse "https" "www.youtube.com" (String "/" q)
                                  "" "" "")) cid))).
  { intros u Hr Hu. unfold normalise_channel_url. rewrite Hu, Hr. reflexivity. }
  rewrite (H (String "/" q) (resolve_rooted_path L q Hq Hp Hdots) eq_refl).
  assert (Hrooted : String "/" q = EmptyString \/ String.prefix "/" (String "/" q) = true)
    by (right; apply (prefix_append "/" q)).
  rewrite (H (YOUTUBE_ORIGIN ++ String "/" q)
             (resolve_canonical L _ Hrooted Hp) eq_refl).
  split; [reflexivity | eexists; reflexivity].
Qed.

Lemma relative_path_resolved_on_origin_witness :
  normalise_channel_url example_externals "/@some.channel/about" None
  = normalise_channel_url example_externals
      (YOUTUBE_ORIGIN ++ "/@some.channel/about") None
  /\ exists c, normalise_channel_url example_externals "/@some.channel/about" None
               = Ret (Some c).
Proof.
  apply (relative_path_resolved_on_origin example_externals "@some.channel/about" None);
    reflexivity.
Defined.

(** ** Further properties of the parser *)

(** Candidates do not overlap: each takes at least the 32 characters of
    the prefix. *)
Lemma redirect_candidates_bound (page_text : string) :
  32 * length (_iter_redirect_urls page_text) <= String.length page_text.
Proof.
  unfold _iter_redirect_urls. generalize (S (String.length page_text)) as fuel.
  intros fuel. revert page_text.
  induction fuel as [| fuel IH]; intros text; cbn [iter_redirect_from]; [simpl; lia |].
  destruct (Py.find REDIRECT_PREFIX text) as [idx |] eqn:Hf; [| simpl; lia].
  apply find_prefix, prefix_split in Hf. destruct Hf as [r Hr].
  pose proof (drop_length idx text) as Hlen. rewrite Hr in Hlen |- *.
  rewrite (span_app candidate_char REDIRECT_PREFIX r) by reflexivity.
  rewrite length_append, (span_length candidate_char r) in Hlen.
  change (String.length REDIRECT_PREFIX) with 32 in Hlen.
  specialize (IH (snd (Py.span candidate_char r))).
  cbn [length]. lia.
Qed.

(** X8: every candidate starts with the redirect prefix and has neither
    whitespace nor a closing parenthesis; there is none exactly when the
    prefix does not occur in the page; candidates do not overlap, so their
    number is at most a 32nd of the length of the page. *)
Theorem redirect_candidates_shape (page_text : string) :
  Forall (fun raw_url =>
            String.prefix REDIRECT_PREFIX raw_url = true
            /\ Py.all_chars candidate_char raw_url = true)
    (_iter_redirect_urls page_text)
  /\ (_iter_redirect_urls page_text = [] <->
      Py.contains REDIRECT_PREFIX page_text = false)
  /\ 32 * length (_iter_redirect_urls page_text) <= String.length page_text.
Proof.
  split; [| split].
  - eapply Forall_impl; [| apply iter_redirect_candidates].
    intros raw (x & -> & Hx). split; [apply prefix_append |].
    apply all_chars_app; [reflexivity | exact Hx].
  - rewrite <- find_none_contains. unfold _iter_redirect_urls. cbn [iter_redirect_from].
    destruct (Py.find REDIRECT_PREFIX page_text) as [idx |].
    + destruct (Py.span candidate_char (Py.drop idx page_text)).
      split; discriminate.
    + split; reflexivity.
  - apply redirect_candidates_bound.
Qed.

Lemma parse_candidate_inv (L : Externals) (idx : nat) (raw_url : string)
    (items : list Item) (it : Item) :
  parse_candidate L idx raw_url = Ret items -> In it items ->
  exists parsed target more,
    Urllib.urlparse L raw_url EmptyString = Ret parsed
    /\ Urllib.dict_get (Urllib.parse_qs L (Urllib.query parsed)) "q"
       = Some (target :: more)
    /\ item_dest it = unquote L target.
Proof.
  unfold parse_candidate.
  destruct (Urllib.urlparse L raw_url EmptyString) as [parsed | e]; cbn [obind];
    [| discriminate].
  destruct (Urllib.dict_get (Urllib.parse_qs L (Urllib.query parsed)) "q")
    as [[| target targets] |] eqn:Eq; try (intros [= <-] []).
  destruct (Urllib.dict_get (Urllib.parse_qs L (Urllib.query parsed)) "event")
    as [[| event events] |]; try discriminate;
    intros [= <-] [<- | []]; exists parsed, target, targets; auto.
Qed.

Lemma parse_candidate_complete (L : Externals) (idx : nat) (raw_url : string)
    (items : list Item) (parsed : Urllib.ParseResult) (target : string)
    (more : list string) :
  parse_candidate L idx raw_url = Ret items ->
  Urllib.urlparse L raw_url EmptyString = Ret parsed ->
  Urllib.dict_get (Urllib.parse_qs L (Urllib.query parsed)) "q" = Some (target :: more) ->
  exists it, In it items /\ item_dest it = unquote L target.
Proof.
  unfold parse_candidate. intros H Hp Hq. rewrite Hp in H. cbn [obind] in H.
  rewrite Hq in H.
  destruct (Urllib.dict_get (Urllib.parse_qs L (Urllib.query parsed)) "event")
    as [[| event events] |]; try discriminate;
    injection H as <-; eexists; (split; [left; reflexivity | reflexivity]).
Qed.

Lemma build_structured_dests (L : Externals) (candidates : list string) :
  forall idx structured dest,
    build_structured L idx candidates = Ret structured ->
    (In dest (map item_dest structured) <->
     exists raw_url, In raw_url candidates /\ decoded_target L raw_url dest).
Proof.
  induction candidates as [| raw rest IH]; intros idx structured dest; simpl.
  - intros [= <-]. split; [intros [] | intros (? & [] & _)].
  - destruct (parse_candidate L idx raw) as [items | e] eqn:Ei; cbn [obind];
      [| discriminate].
    destruct (build_structured L (S idx) rest) as [more | e] eqn:Em; cbn [obind];
      [| discriminate].
    intros [= <-]. rewrite map_app, in_app_iff, (IH (S idx) more dest Em). split.
    + intros [Hin | (r & Hr & Hd)].
      * apply in_map_iff in Hin. destruct Hin as (it & <- & Hin).
        exists raw. split; [now left |].
        destruct (parse_candidate_inv L idx raw items it Ei Hin) as (pa & t & m & H).
        exists pa, t, m. exact H.
      * exists r. auto.
    + intros (r & [<- | Hr] & (pa & t & m & H1 & H2 & ->)).
      * left. destruct (parse_candidate_complete L idx raw items pa t m Ei H1 H2)
          as (it & Hin & <-).
        now apply in_map.
      * right. exists r. split; [exact Hr |]. exists pa, t, m. auto.
Qed.

(** X9: the links returned are exactly the non-empty decoded first [q]
    values of the candidates, and their number is at most a 32nd of the
    length of the page. *)
Theorem links_are_decoded_targets (L : Externals) (page_text : string) :
  exists links,
    parse_channel_links L page_text = Ret links
    /\ (forall dest,
          In dest links <->
          dest <> EmptyString
          /\ exists raw_url,
               In raw_url (_iter_redirect_urls page_text)
               /\ decoded_target L raw_url dest)
    /\ 32 * length links <= String.length page_text.
Proof.
  destruct (structured_of_total L page_text) as [structured Hs].
  rewrite (parse_channel_links_kept L page_text structured Hs).
  eexists. split; [reflexivity |]. split.
  - intros dest.
    rewrite <- (build_structured_dests L _ 0 structured dest Hs).
    rewrite !in_map_iff. split.
    + intros (c & <- & Hc). apply kept_items_in in Hc. destruct Hc as (Hin & Ht & _).
      split; [now apply truthy_true |].
      exists c. split; [reflexivity | now apply sort_by_key_in].
    + intros (Hne & it & <- & Hin).
      destruct (kept_items_represent key_le (sort_by_key structured)
                  (sort_by_key_sorted structured) [] it) as (c & Hc & Ec & _).
      * now apply sort_by_key_in.
      * destruct (item_dest it); [contradiction | reflexivity].
      * intros [].
      * exists c. auto.
  - rewrite length_map.
    assert (Hk : forall items seen, length (kept_items items seen) <= length items).
    { induction items as [| it items IH]; intros seen; simpl; [lia |].
      destruct (negb (Py.truthy (item_dest it)) || Py.str_in (item_dest it) seen);
        [specialize (IH seen) | specialize (IH (item_dest it :: seen))]; simpl; lia. }
    assert (Hb : forall cands idx st,
               build_structured L idx cands = Ret st -> length st <= length cands).
    { induction cands as [| raw rest IH]; intros idx st; simpl.
      - intros [= <-]. simpl. lia.
      - destruct (parse_candidate L idx raw) as [items | e] eqn:Ei; cbn [obind];
          [| discriminate].
        destruct (build_structured L (S idx) rest) as [more | e] eqn:Em; cbn [obind];
          [| discriminate].
        intros [= <-]. rewrite length_app. specialize (IH (S idx) more Em).
        destruct (parse_candidate_idx L idx raw items Ei) as [-> | (ev & de & ->)];
          simpl; lia. }
    pose proof (Hk (sort_by_key structured) []) as H1.
    pose proof (Permutation_length (sort_by_key_perm structured)) as H2.
    pose proof (Hb _ 0 structured Hs) as H3.
    pose proof (redirect_candidates_bound page_text) as H4. lia.
Qed.

(** ** Further properties of the scrape loop *)

Lemma parse_channel_links_nodup (L : Externals) (page_text : string)
    (parsed : list string) :
  parse_channel_links L page_text = Ret parsed ->
  NoDup parsed /\ ~ In EmptyString parsed.
Proof.
  destruct (structured_of_total L page_text) as [structured Hs].
  rewrite (parse_channel_links_kept L page_text structured Hs).
  intros [= <-]. split; [apply kept_items_nodup |].
  intros Hin. apply in_map_iff in Hin. destruct Hin as (c & Ec & Hc).
  apply kept_items_in in Hc. destruct Hc as (_ & Ht & _).
  rewrite Ec in Ht. discriminate.
Qed.

Lemma filter_links_sub (lf : option (list string)) (parsed : list string) (link : string) :
  In link (filter_links lf parsed) -> In link parsed.
Proof.
  destruct lf as [fs |]; cbn [filter_links]; [| auto].
  intros H. apply filter_In in H. tauto.
Qed.

Lemma filter_links_nodup (lf : option (list string)) (parsed : list string) :
  NoDup parsed -> NoDup (filter_links lf parsed).
Proof.
  destruct lf as [fs |]; cbn [filter_links]; [apply NoDup_filter | auto].
Qed.

(** X10: the links of every appended record have no duplicate and no empty
    string, with or without filters. *)
Theorem record_links_have_no_duplicates
    (L : Externals) (W : World) (subs : list Subscription)
    (url_filters : option (list string))
    (on_update : option (list ChannelResult -> outcome unit)) :
  Forall (fun r => NoDup (links r) /\ ~ In EmptyString (links r))
    (appended L W subs url_filters on_update)
  /\ (forall rs, scrape_links L W subs url_filters on_update = Ret rs ->
                 Forall (fun r => NoDup (links r) /\ ~ In EmptyString (links r)) rs).
Proof.
  assert (H : Forall (fun r => NoDup (links r) /\ ~ In EmptyString (links r))
                (appended L W subs url_filters on_update)).
  { unfold appended.
    destruct (for_each_appends L W on_update (lower_filters url_filters) subs 1 [])
      as (extra & -> & Hall).
    cbn [app]. eapply Forall_impl; [| exact Hall].
    intros r (i & sub & _ & about & page & parsed & c & _ & _ & Hp & _ & _ & ->).
    cbn [links]. destruct (parse_channel_links_nodup L page parsed Hp) as [Hn He].
    split; [now apply filter_links_nodup |].
    intros Hin. apply He. eapply filter_links_sub. exact Hin. }
  split; [exact H |].
  intros rs Hrs. now rewrite (scrape_links_returns_appended _ _ _ _ _ _ Hrs).
Qed.

Section AnyWorld.

Variable L : Externals.
Variable W : World.
Variable on_update : option (list ChannelResult -> outcome unit).
Variable lf : option (list string).

Lemma for_each_titles (subs : list Subscription) :
  forall index rs,
  exists extra,
    fst (for_each L W on_update lf index subs rs) = (rs ++ extra)%list
    /\ subsequence (map channel_title extra) (map title subs).
Proof.
  induction subs as [| sub subs IH]; intros index rs; cbn [for_each map].
  - exists []. split; [unfold lret; cbn [fst]; now rewrite app_nil_r | constructor].
  - unfold lbind.
    pose proof (iteration_appends L W on_update lf index sub rs) as Hit.
    destruct (iteration L W on_update lf index sub rs) as [rs1 [u | e]]; cbn [fst] in *.
    + destruct (IH (S index) rs1) as (extra & E & Hsub).
      destruct Hit as [-> | (r & Hr & ->)].
      * exists extra. split; [exact E | now constructor].
      * exists (r :: extra). split; [rewrite E, <- app_assoc; reflexivity |].
        destruct Hr as (? & ? & ? & ? & _ & _ & _ & _ & _ & ->).
        cbn [map channel_title]. now constructor.
    + destruct Hit as [-> | (r & Hr & ->)].
      * exists []. split; [now rewrite app_nil_r | constructor].
      * exists [r]. split; [reflexivity |].
        destruct Hr as (? & ? & ? & ? & _ & _ & _ & _ & _ & ->).
        cbn [map channel_title]. constructor. constructor.
Qed.

End AnyWorld.

Lemma subsequence_length {A : Type} (a b : list A) :
  subsequence a b -> length a <= length b.
Proof. induction 1; simpl; lia. Qed.

(** X11: in every world the titles of the appended records are the titles
    of the input with some left out, in input order; a returned list is no
    longer than the input. *)
Theorem result_titles_follow_input
    (L : Externals) (W : World) (subs : list Subscription)
    (url_filters : option (list string))
    (on_update : option (list ChannelResult -> outcome unit)) :
  subsequence (map channel_title (appended L W subs url_filters on_update))
    (map title subs)
  /\ (forall rs, scrape_links L W subs url_filters on_update = Ret rs ->
                 subsequence (map channel_title rs) (map title subs)
                 /\ length rs <= length subs).
Proof.
  assert (H : subsequence (map channel_title (appended L W subs url_filters on_update))
                (map title subs)).
  { unfold appended.
    destruct (for_each_titles L W on_update (lower_filters url_filters) subs 1 [])
      as (extra & -> & Hsub).
    exact Hsub. }
  split; [exact H |].
  intros rs Hrs. rewrite (scrape_links_returns_appended _ _ _ _ _ _ Hrs).
  split; [exact H |].
  apply subsequence_length in H. now rewrite !length_map in H.
Qed.

Section FailingCallback.

Variable L : Externals.
Variable W : World.
Variable callback : list ChannelResult -> outcome unit.
Variable lf : option (list string).
Variable e : exn.

Hypothesis no_interrupt : forall i p, interrupt W i p = false.
Hypothesis fetch_raises_exceptions :
  forall i target e', urlopen W i target = Raise e' -> is_Exception e' = true.
Hypothesis callback_raises : forall snapshot, callback snapshot = Raise e.

Lemma iteration_failing_callback (index : nat) (sub : Subscription)
    (rs : list ChannelResult) :
  (fetched L W index sub = true ->
   exists r, record_of L W lf index sub r
             /\ iteration L W (Some callback) lf index sub rs
                = ((rs ++ [r])%list, Raise e))
  /\ (fetched L W index sub = false ->
      iteration L W (Some callback) lf index sub rs = (rs, Ret tt)).
Proof.
  unfold fetched, iteration, lbind, try_, lift, tick, append, call_on_update, lret, lraise.
  cbv zeta. rewrite !no_interrupt.
  destruct (about_url L sub) as [about | e0] eqn:Ea.
  2:{ rewrite (about_url_raises L sub e0 Ea). cbn [is_ValueError].
      split; [discriminate | reflexivity]. }
  destruct (fetch_about_page W index about) as [page | e0] eqn:Ef.
  2:{ unfold fetch_about_page in Ef. rewrite (fetch_raises_exceptions _ _ _ Ef).
      split; [discriminate | reflexivity]. }
  split; [intros _ | discriminate].
  destruct (parse_channel_links_total L page) as [parsed Ep]. rewrite Ep.
  destruct (about_url_canonical L sub about Ea) as (c & Hn & Hc & _).
  rewrite Hn, Hc, callback_raises.
  exists (mkResult (title sub) c (filter_links lf parsed)).
  split; [exists about, page, parsed, c; repeat split; assumption | reflexivity].
Qed.

Lemma for_each_failing_callback (subs : list Subscription) :
  forall index rs,
    match fetched_from L W index subs with
    | [] => for_each L W (Some callback) lf index subs rs = (rs, Ret tt)
    | first :: _ =>
        exists i r, record_of L W lf i first r
                    /\ for_each L W (Some callback) lf index subs rs
                       = ((rs ++ [r])%list, Raise e)
    end.
Proof.
  induction subs as [| sub subs IH]; intros index rs; cbn [fetched_from for_each].
  - reflexivity.
  - unfold lbind. destruct (iteration_failing_callback index sub rs) as [Hyes Hno].
    destruct (fetched L W index sub).
    + destruct (Hyes eq_refl) as (r & Hr & ->). exists index, r. auto.
    + rewrite (Hno eq_refl). apply IH.
Qed.

End FailingCallback.

(** X13: when the callback raises and no fetch does worse than an
    [Exception], the run ends at the first fetched subscription:
    [scrape_links] raises what the callback raised, or, for a
    [KeyboardInterrupt], returns the one record appended. *)
Theorem callback_failure_ends_the_run
    (L : Externals) (W : World) (subs : list Subscription)
    (url_filters : option (list string))
    (callback : list ChannelResult -> outcome unit) (e : exn)
    (first : Subscription) (others : list Subscription) :
  (forall i p, interrupt W i p = false) ->
  (forall i target e', urlopen W i target = Raise e' -> is_Exception e' = true) ->
  (forall snapshot, callback snapshot = Raise e) ->
  fetched_from L W 1 subs = first :: others ->
  (e <> KeyboardInterrupt ->
   scrape_links L W subs url_filters (Some callback) = Raise e)
  /\ (e = KeyboardInterrupt ->
      exists i r, record_of L W (lower_filters url_filters) i first r
                  /\ scrape_links L W subs url_filters (Some callback) = Ret [r]).
Proof.
  intros Hq Hf Hc Hfirst.
  pose proof (for_each_failing_callback L W callback (lower_filters url_filters) e
                Hq Hf Hc subs 1 []) as H.
  rewrite Hfirst in H. destruct H as (i & r & Hr & E).
  unfold scrape_links. rewrite E. cbn [app]. split.
  - intros Hne. destruct e; try reflexivity. contradiction.
  - intros ->. exists i, r. auto.
Qed.

Lemma callback_failure_ends_the_run_witness :
  (OtherException "OSError" <> KeyboardInterrupt ->
   scrape_links example_externals (quiet_world example_page) example_subscriptions None
     (Some (fun _ => Raise (OtherException "OSError")))
   = Raise (OtherException "OSError"))
  /\ (OtherException "OSError" = KeyboardInterrupt ->
      exists i r,
        record_of example_externals (quiet_world example_page) (lower_filters None) i
          (mkSubscription "Foo" "https://www.youtube.com/c/foo" None) r
        /\ scrape_links example_externals (quiet_world example_page)
             example_subscriptions None
             (Some (fun _ => Raise (OtherException "OSError"))) = Ret [r]).
Proof.
  apply (callback_failure_ends_the_run example_externals (quiet_world example_page)
           example_subscriptions None (fun _ => Raise (OtherException "OSError"))
           (OtherException "OSError")
           (mkSubscription "Foo" "https://www.youtube.com/c/foo" None)
           [mkSubscription "Bar" "https://www.youtube.com/@bar/about" (Some "UCbar");
            mkSubscription "Qux" "/user/qux/" None]).
  - intros i p. reflexivity.
  - intros i target e'. discriminate.
  - intros snapshot. reflexivity.
  - vm_compute. reflexivity.
Defined.

Section TwoWorlds.

Variable L : Externals.
Variables W1 W2 : World.
Variable on_update : option (list ChannelResult -> outcome unit).
Variable lf : option (list string).

Hypothesis same_interrupts : forall i p, interrupt W1 i p = interrupt W2 i p.
Hypothesis same_answers :
  forall i target,
    String.prefix (PROXY_PREFIX ++ YOUTUBE_ORIGIN) target = true ->
    urlopen W1 i target = urlopen W2 i target.

Lemma fetch_same (index : nat) (sub : Subscription) (about : string) :
  about_url L sub = Ret about ->
  fetch_about_page W1 index about = fetch_about_page W2 index about.
Proof.
  intros Ha. destruct (about_url_canonical L sub about Ha) as (c & Hn & _ & ->).
  destruct (normalise_some_inv L _ _ c Hn) as (parsed & _ & ->).
  destruct (canonical_base_rooted (channel_path parsed) (channel_id sub)) as (p & -> & _).
  unfold fetch_about_page. apply same_answers.
  change (PROXY_PREFIX ++ (YOUTUBE_ORIGIN ++ p) ++ "/about")
    with ((PROXY_PREFIX ++ YOUTUBE_ORIGIN) ++ (p ++ "/about")).
  apply prefix_append.
Qed.

Lemma iteration_same (index : nat) (sub : Subscription) (rs : list ChannelResult) :
  iteration L W1 on_update lf index sub rs = iteration L W2 on_update lf index sub rs.
Proof.
  unfold iteration, lbind, try_, lift, tick. rewrite !same_interrupts.
  destruct (interrupt W2 index AtProgress); [reflexivity |].
  destruct (interrupt W2 index AtAboutUrl); [reflexivity |].
  destruct (about_url L sub) as [about | e] eqn:Ea; [| reflexivity].
  rewrite (fetch_same index sub about Ea). reflexivity.
Qed.

Lemma for_each_same (subs : list Subscription) :
  forall index rs,
    for_each L W1 on_update lf index subs rs = for_each L W2 on_update lf index subs rs.
Proof.
  induction subs as [| sub subs IH]; intros index rs; cbn [for_each]; [reflexivity |].
  unfold lbind. rewrite iteration_same.
  destruct (iteration L W2 on_update lf index sub rs) as [rs1 [u | e]];
    [apply IH | reflexivity].
Qed.

End TwoWorlds.

(** X14: [scrape_links] only looks at the answers to requests sent through
    the proxy for a page of the YouTube origin: two worlds that agree on
    those, and on the interrupts, give the same result. *)
Theorem only_proxied_youtube_pages_are_requested
    (L : Externals) (W1 W2 : World) (subs : list Subscription)
    (url_filters : option (list string))
    (on_update : option (list ChannelResult -> outcome unit)) :
  (forall i p, interrupt W1 i p = interrupt W2 i p) ->
  (forall i target,
      String.prefix (PROXY_PREFIX ++ YOUTUBE_ORIGIN) target = true ->
      urlopen W1 i target = urlopen W2 i target) ->
  scrape_links L W1 subs url_filters on_update
  = scrape_links L W2 subs url_filters on_update.
Proof.
  intros Hi Ha. unfold scrape_links.
  now rewrite (for_each_same L W1 W2 on_update (lower_filters url_filters) Hi Ha subs 1 []).
Qed.

Lemma only_proxied_youtube_pages_are_requested_witness :
  scrape_links example_externals (quiet_world example_page) example_subscriptions
    (Some ["twitter"]) None
  = scrape_links example_externals (proxy_only_world example_page) example_subscriptions
      (Some ["twitter"]) None.
Proof.
  apply (only_proxied_youtube_pages_are_requested example_externals
           (quiet_world example_page) (proxy_only_world example_page)).
  - intros i p. reflexivity.
  - intros i target H. cbn [urlopen quiet_world proxy_only_world]. now rewrite H.
Defined.

Lemma contains_empty (s : string) : Py.contains EmptyString s = true.
Proof. destruct s; reflexivity. Qed.

Lemma filter_all (A : Type) (f : A -> bool) (l : list A) :
  (forall x, In x l -> f x = true) -> filter f l = l.
Proof.
  induction l as [| x l IH]; simpl; intros H; [reflexivity |].
  rewrite (H x) by now left. f_equal. apply IH. intros y Hy. apply H. now right.
Qed.

(** X15: filter terms are alternatives: a link passes a list of terms
    exactly when it passes one of two non-empty parts of the list. *)
Theorem filter_terms_are_alternatives
    (terms more : list string) (parsed : list string) (link : string) :
  terms <> [] -> more <> [] ->
  In link (filter_links (lower_filters (Some (terms ++ more)%list)) parsed)
  <-> In link (filter_links (lower_filters (Some terms)) parsed)
      \/ In link (filter_links (lower_filters (Some more)) parsed).
Proof.
  intros Ht Hm. rewrite !filter_links_spec.
  destruct terms as [| t ts]; [contradiction |].
  destruct more as [| m ms]; [contradiction |].
  cbn [allowed app]. split.
  - intros [Hin (term & Hterm & Hmatch)].
    change (t :: (ts ++ m :: ms)%list) with ((t :: ts) ++ m :: ms)%list in Hterm.
    apply in_app_iff in Hterm. destruct Hterm as [H | H].
    + left. split; [exact Hin |]. exists term. auto.
    + right. split; [exact Hin |]. exists term. auto.
  - intros [[Hin (term & Hterm & Hmatch)] | [Hin (term & Hterm & Hmatch)]];
      (split; [exact Hin |]); exists term; (split; [| exact Hmatch]);
      change (t :: (ts ++ m :: ms)%list) with ((t :: ts) ++ m :: ms)%list;
      apply in_app_iff; auto.
Qed.

Lemma filter_terms_are_alternatives_witness :
  In "https://Twitter.com/foo"
    (filter_links (lower_filters (Some (["example.org"] ++ ["TWITTER"])%list))
       ["https://example.com"; "https://Twitter.com/foo"])
  <-> In "https://Twitter.com/foo"
        (filter_links (lower_filters (Some ["example.org"]))
           ["https://example.com"; "https://Twitter.com/foo"])
      \/ In "https://Twitter.com/foo"
           (filter_links (lower_filters (Some ["TWITTER"]))
              ["https://example.com"; "https://Twitter.com/foo"]).
Proof.
  apply (filter_terms_are_alternatives ["example.org"] ["TWITTER"]
           ["https://example.com"; "https://Twitter.com/foo"] "https://Twitter.com/foo");
    discriminate.
Defined.

(** X16: a filter list that holds the empty string keeps every link. *)
Theorem empty_filter_term_keeps_all (terms : list string) (parsed : list string) :
  In EmptyString terms ->
  filter_links (lower_filters (Some terms)) parsed = parsed.
Proof.
  intros Hempty. destruct terms as [| t ts]; [destruct Hempty |].
  cbn [lower_filters filter_links]. apply filter_all. intros link _.
  apply existsb_exists. exists EmptyString. split; [| apply contains_empty].
  change EmptyString with (Py.lower EmptyString). now apply in_map.
Qed.

Lemma empty_filter_term_keeps_all_witness :
  filter_links (lower_filters (Some ["twitter"; ""]))
    ["https://example.com"; "https://Twitter.com/foo"]
  = ["https://example.com"; "https://Twitter.com/foo"].
Proof.
  apply (empty_filter_term_keeps_all ["twitter"; ""]
           ["https://example.com"; "https://Twitter.com/foo"]).
  right. left. reflexivity.
Defined.
